(** * DrawFrameTask: the producer / render-thread frame hand-off of hwui

    A shallow embedding of [libs/hwui/renderthread/DrawFrameTask.cpp] and the
    properties of its synchronisation pass, its release protocol, its work
    duration hints and its layer-update queue.

    The task object is a record.  Everything the task calls into (the
    CanvasContext, the TimeLord, the layers, the monotonic clock, the hint
    callbacks) is an abstract state [E] with one operation per call; the
    theorems hold for every implementation of that interface.  Each member
    function is a computation in a small monad that threads the task and [E],
    emits the calls it makes, with what they answered, as a list of events
    and may stop on LOG_ALWAYS_FATAL or on a null dereference.  The producer
    and the render thread are laid out one after the other: drawFrame posts
    the run routine, the run routine is executed, and the producer's wait
    returns if it was signalled. *)

From Stdlib Require Import ZArith Lia String.
From stdpp Require Import base tactics option list sets.

Local Open Scope Z_scope.
#[local] Set Warnings "-clear-no-such-hyp".

(** ** Machine integers *)

(** int64_t arithmetic, two's complement wrap-around written out. *)
Definition wrap64 (z : Z) : Z := (z + 2 ^ 63) mod 2 ^ 64 - 2 ^ 63.
Definition sub64 (a b : Z) : Z := wrap64 (a - b).
Definition mul64 (a b : Z) : Z := wrap64 (a * b).
(** C++ division truncates toward zero. *)
Definition div64 (a b : Z) : Z := wrap64 (Z.quot a b).

Definition in_int64 (z : Z) : Prop := - 2 ^ 63 <= z < 2 ^ 63.

(** ** Data *)

(** Non-null addresses; a nullable pointer is an [option Ptr]. *)
Definition Ptr := positive.
(** The target of a non-empty std::function; an empty one is [None]. *)
Definition Callback := positive.

(** Modelled from the spec: the SyncResult enum of DrawFrameTask.h, a bitmask
    of independent flags with OK = 0, in the order the spec lists them. *)
Module SyncResult.
Definition OK : Z := 0.
Definition UIRedrawRequired : Z := Z.shiftl 1 0.
Definition LostSurfaceRewardIfFound : Z := Z.shiftl 1 1.
Definition ContextIsStopped : Z := Z.shiftl 1 2.
Definition FrameDropped : Z := Z.shiftl 1 3.
End SyncResult.

(** [r & flag] is non-zero. *)
Definition has_flag (r flag : Z) : bool := negb (Z.land r flag =? 0).

(** Modelled from the spec: the slots of FrameInfoIndex (FrameInfo.h) that
    DrawFrameTask.cpp reads.  The array [mFrameInfo] is a function from slot
    names, the numeric values of the enum play no role. *)
Inductive FrameInfoIndex :=
| Vsync | IntendedVsync | FrameDeadline | FrameInterval
| FrameTimelineVsyncId | FrameStartTime.

Definition FrameInfo := FrameInfoIndex → Z.

(** Coordinates are only stored and passed on. *)
Record Rect := mkRect { left : Z; top : Z; right : Z; bottom : Z }.

(** Modelled from the spec: the fields of TreeInfo (TreeInfo.h) that
    prepareTree populates and DrawFrameTask.cpp reads. *)
Record TreeInfo := mkTreeInfo {
  prepareTextures : bool;
  out_hasAnimations : bool;
  out_requiresUiRedraw : bool;
  out_canDrawThisFrame : bool
}.

(** [TreeInfo info(TreeInfo::MODE_FULL, *mContext)] *)
Definition TreeInfo_MODE_FULL : TreeInfo :=
  {| prepareTextures := true; out_hasAnimations := false;
     out_requiresUiRedraw := false; out_canDrawThisFrame := true |}.

Definition set_prepareTextures (b : bool) (i : TreeInfo) : TreeInfo :=
  {| prepareTextures := b;
     out_hasAnimations := out_hasAnimations i;
     out_requiresUiRedraw := out_requiresUiRedraw i;
     out_canDrawThisFrame := out_canDrawThisFrame i |}.

Definition set_canDrawThisFrame (b : bool) (i : TreeInfo) : TreeInfo :=
  {| prepareTextures := prepareTextures i;
     out_hasAnimations := out_hasAnimations i;
     out_requiresUiRedraw := out_requiresUiRedraw i;
     out_canDrawThisFrame := b |}.

(** The members of DrawFrameTask. *)
Record DrawFrameTask := mkTask {
  mRenderThread : option Ptr;
  mContext : option Ptr;
  mTargetNode : option Ptr;
  mContentDrawBounds : Rect;
  mSyncResult : Z;
  mSyncQueued : Z;
  mLayers : list Ptr;
  mFrameInfo : FrameInfo;
  mFrameCallback : option Callback;
  mFrameCompleteCallback : option Callback;
  mUpdateTargetWorkDuration : option Callback;
  mReportActualWorkDuration : option Callback;
  mLastTargetWorkDuration : Z;
  mLastDequeueBufferDuration : Z
}.

(** [DrawFrameTask::DrawFrameTask()].  The members the constructor leaves
    to the header (DrawFrameTask.h, not part of the sources here) are
    arguments; the vector and the std::function members start empty. *)
Definition DrawFrameTask_new (queued0 : Z) (frameInfo0 : FrameInfo)
    (lastTarget0 lastDequeue0 : Z) : DrawFrameTask :=
  {| mRenderThread := None;
     mContext := None;
     mTargetNode := None;
     mContentDrawBounds := mkRect 0 0 0 0;
     mSyncResult := SyncResult.OK;
     mSyncQueued := queued0;
     mLayers := [];
     mFrameInfo := frameInfo0;
     mFrameCallback := None;
     mFrameCompleteCallback := None;
     mUpdateTargetWorkDuration := None;
     mReportActualWorkDuration := None;
     mLastTargetWorkDuration := lastTarget0;
     mLastDequeueBufferDuration := lastDequeue0 |}.

Definition with_context (thread context node : option Ptr)
    (t : DrawFrameTask) : DrawFrameTask :=
  mkTask thread context node (mContentDrawBounds t) (mSyncResult t)
    (mSyncQueued t) (mLayers t) (mFrameInfo t) (mFrameCallback t)
    (mFrameCompleteCallback t) (mUpdateTargetWorkDuration t)
    (mReportActualWorkDuration t) (mLastTargetWorkDuration t)
    (mLastDequeueBufferDuration t).

Definition with_hintCallbacks (u r : option Callback)
    (t : DrawFrameTask) : DrawFrameTask :=
  mkTask (mRenderThread t) (mContext t) (mTargetNode t)
    (mContentDrawBounds t) (mSyncResult t) (mSyncQueued t) (mLayers t)
    (mFrameInfo t) (mFrameCallback t) (mFrameCompleteCallback t) u r
    (mLastTargetWorkDuration t) (mLastDequeueBufferDuration t).

Definition with_mSyncResult (r : Z) (t : DrawFrameTask) : DrawFrameTask :=
  mkTask (mRenderThread t) (mContext t) (mTargetNode t)
    (mContentDrawBounds t) r (mSyncQueued t) (mLayers t) (mFrameInfo t)
    (mFrameCallback t) (mFrameCompleteCallback t)
    (mUpdateTargetWorkDuration t) (mReportActualWorkDuration t)
    (mLastTargetWorkDuration t) (mLastDequeueBufferDuration t).

Definition with_mSyncQueued (q : Z) (t : DrawFrameTask) : DrawFrameTask :=
  mkTask (mRenderThread t) (mContext t) (mTargetNode t)
    (mContentDrawBounds t) (mSyncResult t) q (mLayers t) (mFrameInfo t)
    (mFrameCallback t) (mFrameCompleteCallback t)
    (mUpdateTargetWorkDuration t) (mReportActualWorkDuration t)
    (mLastTargetWorkDuration t) (mLastDequeueBufferDuration t).

Definition with_mLayers (l : list Ptr) (t : DrawFrameTask) : DrawFrameTask :=
  mkTask (mRenderThread t) (mContext t) (mTargetNode t)
    (mContentDrawBounds t) (mSyncResult t) (mSyncQueued t) l (mFrameInfo t)
    (mFrameCallback t) (mFrameCompleteCallback t)
    (mUpdateTargetWorkDuration t) (mReportActualWorkDuration t)
    (mLastTargetWorkDuration t) (mLastDequeueBufferDuration t).

Definition with_mFrameCallback (c : option Callback)
    (t : DrawFrameTask) : DrawFrameTask :=
  mkTask (mRenderThread t) (mContext t) (mTargetNode t)
    (mContentDrawBounds t) (mSyncResult t) (mSyncQueued t) (mLayers t)
    (mFrameInfo t) c (mFrameCompleteCallback t)
    (mUpdateTargetWorkDuration t) (mReportActualWorkDuration t)
    (mLastTargetWorkDuration t) (mLastDequeueBufferDuration t).

Definition with_mFrameCompleteCallback (c : option Callback)
    (t : DrawFrameTask) : DrawFrameTask :=
  mkTask (mRenderThread t) (mContext t) (mTargetNode t)
    (mContentDrawBounds t) (mSyncResult t) (mSyncQueued t) (mLayers t)
    (mFrameInfo t) (mFrameCallback t) c
    (mUpdateTargetWorkDuration t) (mReportActualWorkDuration t)
    (mLastTargetWorkDuration t) (mLastDequeueBufferDuration t).

Definition with_mLastTargetWorkDuration (d : Z)
    (t : DrawFrameTask) : DrawFrameTask :=
  mkTask (mRenderThread t) (mContext t) (mTargetNode t)
    (mContentDrawBounds t) (mSyncResult t) (mSyncQueued t) (mLayers t)
    (mFrameInfo t) (mFrameCallback t) (mFrameCompleteCallback t)
    (mUpdateTargetWorkDuration t) (mReportActualWorkDuration t)
    d (mLastDequeueBufferDuration t).

Definition with_mLastDequeueBufferDuration (d : Z)
    (t : DrawFrameTask) : DrawFrameTask :=
  mkTask (mRenderThread t) (mContext t) (mTargetNode t)
    (mContentDrawBounds t) (mSyncResult t) (mSyncQueued t) (mLayers t)
    (mFrameInfo t) (mFrameCallback t) (mFrameCompleteCallback t)
    (mUpdateTargetWorkDuration t) (mReportActualWorkDuration t)
    (mLastTargetWorkDuration t) d.

(** ** Collaborators *)

(** What the task calls into, as operations on an abstract state [E] of
    everything outside the task.  A call on the CanvasContext takes the
    context pointer first.  [hasSurface] is a const getter;
    [targetCpuTimePercentage] is the process-wide knob of Properties. *)
Class Collaborators (E : Type) := {
  systemTime : E → Z * E;
  targetCpuTimePercentage : Z;
  vsyncReceived : Z → Z → Z → Z → Z → E → E;
  makeCurrent : Ptr → E → bool * E;
  unpinImages : Ptr → E → E;
  layerApply : Ptr → E → E;
  setContentDrawBounds : Ptr → Rect → E → E;
  prepareTree : Ptr → TreeInfo → FrameInfo → Z → option Ptr → E → TreeInfo * E;
  hasSurface : Ptr → E → bool;
  addFrameCompleteListener : Ptr → Callback → E → E;
  getFrameNumber : Ptr → E → Z * E;
  enqueueFrameWork : Ptr → Callback → Z → E → E;
  draw : Ptr → E → Z * E;
  waitOnFences : Ptr → E → E;
  invoke : Callback → Z → E → E
}.

(** The calls a member function makes, in the order it makes them. *)
Inductive Event :=
| EvSystemTime (now : Z)
| EvPost
| EvSignal
| EvVsyncReceived (vsync intendedVsync vsyncId deadline interval : Z)
| EvMakeCurrent (ok : bool)
| EvUnpinImages
| EvApply (layer : Ptr)
| EvSetContentDrawBounds (r : Rect)
| EvPrepareTree (queued : Z) (target : option Ptr) (info : TreeInfo)
| EvHasSurface (surface : bool)
| EvAddFrameCompleteListener (cb : Callback)
| EvEnqueueFrameWork (cb : Callback) (frameNr : Z)
| EvDraw (dequeueBufferDuration : Z)
| EvWaitOnFences
| EvUpdateTargetWorkDuration (cb : Callback) (target : Z)
| EvReportActualWorkDuration (cb : Callback) (actual : Z).

Definition is_signal (e : Event) : bool :=
  match e with EvSignal => true | _ => false end.

Definition is_clock (e : Event) : bool :=
  match e with EvSystemTime _ => true | _ => false end.

Definition is_draw_or_wait (e : Event) : bool :=
  match e with EvDraw _ | EvWaitOnFences => true | _ => false end.

Definition is_post (e : Event) : bool :=
  match e with EvPost => true | _ => false end.

Definition is_apply (e : Event) : bool :=
  match e with EvApply _ => true | _ => false end.

Definition is_prepareTree (e : Event) : bool :=
  match e with EvPrepareTree _ _ _ => true | _ => false end.

Definition is_listener (e : Event) : bool :=
  match e with EvAddFrameCompleteListener _ => true | _ => false end.

Definition is_frame_work (e : Event) : bool :=
  match e with EvEnqueueFrameWork _ _ => true | _ => false end.

(** A call of one of the two hint callbacks. *)
Definition is_hint (e : Event) : bool :=
  match e with
  | EvUpdateTargetWorkDuration _ _ | EvReportActualWorkDuration _ _ => true
  | _ => false
  end.

Definition is_target_update (e : Event) : bool :=
  match e with EvUpdateTargetWorkDuration _ _ => true | _ => false end.

(** What the synchronisation pass emits. *)
Definition is_sync_event (e : Event) : bool :=
  match e with
  | EvVsyncReceived _ _ _ _ _ | EvMakeCurrent _ | EvUnpinImages | EvApply _
  | EvSetContentDrawBounds _ | EvPrepareTree _ _ _ | EvHasSurface _ => true
  | _ => false
  end.

(** How many events of a trace satisfy [p]. *)
Definition count (p : Event → bool) (tr : list Event) : nat :=
  length (List.filter p tr).

(** The producer's side of [mSignal]: not waiting, blocked in
    [mSignal.wait], or woken by a signal. *)
Inductive WaitState := Idle | Waiting | Woken.

(** A signal wakes a waiting producer and is lost otherwise. *)
Definition signalled (s : WaitState) : WaitState :=
  match s with Waiting => Woken | s => s end.

Inductive LayerOp :=
| PushLayer (layer : Ptr)
| RemoveLayer (layer : Ptr).

Inductive Failure :=
| LogAlwaysFatal (msg : string)
| NullDereference
| Deadlock.

(** The task, the collaborators and the producer's wait on [mSignal]. *)
Record World (E : Type) := mkWorld {
  task : DrawFrameTask;
  env : E;
  waiter : WaitState
}.
Arguments mkWorld {E} task env waiter.
Arguments task {E} w.
Arguments env {E} w.
Arguments waiter {E} w.

(** A member function returns, or the process stops; either way with the
    world as it was left and the events emitted so far. *)
Inductive Outcome (E A : Type) :=
| Done (a : A) (w : World E) (tr : list Event)
| Failed (f : Failure) (w : World E) (tr : list Event).
Arguments Done {E A} a w tr.
Arguments Failed {E A} f w tr.

(** The world as the call left it, returned or not. *)
Definition outcome_world {E A} (o : Outcome E A) : World E :=
  match o with Done _ w _ | Failed _ w _ => w end.

(** State, event log and failure. *)
Definition M (E A : Type) : Type := World E → Outcome E A.

Definition ret {E A} (a : A) : M E A := λ w, Done a w [].

Definition bind {E A B} (m : M E A) (k : A → M E B) : M E B := λ w,
  match m w with
  | Done a w1 tr1 =>
      match k a w1 with
      | Done b w2 tr2 => Done b w2 (tr1 ++ tr2)
      | Failed f w2 tr2 => Failed f w2 (tr1 ++ tr2)
      end
  | Failed f w1 tr1 => Failed f w1 tr1
  end.

Global Instance M_ret {E} : MRet (M E) := @ret E.
Global Instance M_bind {E} : MBind (M E) := λ A B k m, bind m k.

Section Task.
Context {E : Type} `{!Collaborators E}.

Definition gets {A} (f : DrawFrameTask → A) : M E A := λ w,
  Done (f (task w)) w [].

Definition modify (f : DrawFrameTask → DrawFrameTask) : M E unit := λ w,
  Done tt (mkWorld (f (task w)) (env w) (waiter w)) [].

(** A call with a result into the collaborators. *)
Definition call {A} (f : E → A * E) (ev : A → list Event) : M E A := λ w,
  Done (f (env w)).1 (mkWorld (task w) (f (env w)).2 (waiter w))
       (ev (f (env w)).1).

(** A void call into the collaborators. *)
Definition call_ (f : E → E) (ev : Event) : M E unit := λ w,
  Done tt (mkWorld (task w) (f (env w)) (waiter w)) [ev].

(** An event that leaves the world as it is. *)
Definition emit (ev : Event) : M E unit := λ w, Done tt w [ev].

(** A const getter of a collaborator. *)
Definition observe {A} (f : E → A) (ev : A → Event) : M E A := λ w,
  Done (f (env w)) w [ev (f (env w))].

(** [LOG_ALWAYS_FATAL_IF(cond, msg)] *)
Definition LOG_ALWAYS_FATAL_IF (cond : bool) (msg : string) : M E unit := λ w,
  if cond then Failed (LogAlwaysFatal msg) w [] else Done tt w [].

(** [p->...] on a nullable pointer. *)
Definition deref (p : option Ptr) : M E Ptr := λ w,
  match p with
  | Some a => Done a w []
  | None => Failed NullDereference w []
  end.

Definition is_null {A} (p : option A) : bool :=
  match p with Some _ => false | None => true end.

(** ** The member functions *)

Definition setContext (thread context targetNode : option Ptr) : M E unit :=
  modify (with_context thread context targetNode).

Definition setHintSessionCallbacks
    (updateTargetWorkDuration reportActualWorkDuration : option Callback)
    : M E unit :=
  modify (with_hintCallbacks updateTargetWorkDuration
            reportActualWorkDuration).

(** The search loop shared by pushLayerUpdate and removeLayerUpdate: the
    first index [i] with [mLayers[i].get() == layer]. *)
Fixpoint find_layer (layer : Ptr) (layers : list Ptr) : option nat :=
  match layers with
  | [] => None
  | x :: rest =>
      if decide (x = layer) then Some 0%nat else S <$> find_layer layer rest
  end.

Definition pushLayerUpdate (layer : Ptr) : M E unit :=
  context ← gets mContext;
  LOG_ALWAYS_FATAL_IF (is_null context)
    "Lifecycle violation, there's no context to pushLayerUpdate with!";;
  layers ← gets mLayers;
  match find_layer layer layers with
  | Some _ => mret tt
  | None => modify (with_mLayers (layers ++ [layer]))
  end.

Definition removeLayerUpdate (layer : Ptr) : M E unit :=
  layers ← gets mLayers;
  match find_layer layer layers with
  | Some i => modify (with_mLayers (delete i layers))
  | None => mret tt
  end.

(** [mSignal.signal()] under [mLock]: wakes the producer if it waits. *)
Definition unblockUiThread : M E unit := λ w,
  Done tt (mkWorld (task w) (env w) (signalled (waiter w))) [EvSignal].

(** [for (i...) mLayers[i]->apply();] *)
Fixpoint apply_layers (layers : list Ptr) : M E unit :=
  match layers with
  | [] => mret tt
  | l :: rest => call_ (layerApply l) (EvApply l);; apply_layers rest
  end.

Definition or_mSyncResult (flag : Z) : M E unit :=
  modify (λ t, with_mSyncResult (Z.lor (mSyncResult t) flag) t).

(** [bool syncFrameState(TreeInfo& info)]: the result and [info] as the
    call leaves it. *)
Definition syncFrameState (info : TreeInfo) : M E (bool * TreeInfo) :=
  frameInfo ← gets mFrameInfo;
  let vsync := frameInfo Vsync in
  let intendedVsync := frameInfo IntendedVsync in
  let vsyncId := frameInfo FrameTimelineVsyncId in
  let frameDeadline := frameInfo FrameDeadline in
  let frameInterval := frameInfo FrameInterval in
  thread ← gets mRenderThread;
  _ ← deref thread;
  call_ (vsyncReceived vsync intendedVsync vsyncId frameDeadline frameInterval)
    (EvVsyncReceived vsync intendedVsync vsyncId frameDeadline frameInterval);;
  context ← gets mContext;
  c ← deref context;
  canDraw ← call (makeCurrent c) (λ ok, [EvMakeCurrent ok]);
  call_ (unpinImages c) EvUnpinImages;;
  layers ← gets mLayers;
  apply_layers layers;;
  modify (with_mLayers []);;
  bounds ← gets mContentDrawBounds;
  call_ (setContentDrawBounds c bounds) (EvSetContentDrawBounds bounds);;
  queued ← gets mSyncQueued;
  node ← gets mTargetNode;
  info ← call (prepareTree c info frameInfo queued node)
              (λ i, [EvPrepareTree queued node i]);
  surface ← observe (hasSurface c) EvHasSurface;
  info ← (if negb surface || negb canDraw then
            surface' ← observe (hasSurface c) EvHasSurface;
            (if negb surface'
             then or_mSyncResult SyncResult.LostSurfaceRewardIfFound
             else or_mSyncResult SyncResult.ContextIsStopped);;
            mret (set_canDrawThisFrame false info)
          else mret info);
  (if out_hasAnimations info then
     if out_requiresUiRedraw info
     then or_mSyncResult SyncResult.UIRedrawRequired
     else mret tt
   else mret tt);;
  (if negb (out_canDrawThisFrame info)
   then or_mSyncResult SyncResult.FrameDropped
   else mret tt);;
  mret (prepareTextures info, info).

Definition kSanityCheckLowerBound : Z := 100000.
Definition kSanityCheckUpperBound : Z := 10000000000.

(** The body of [if (mUpdateTargetWorkDuration && mReportActualWorkDuration)]
    in run. *)
Definition reportWorkDurations (update report : Callback)
    (frameDeadline intendedVsync frameStartTime
     syncDelayDuration dequeueBufferDuration : Z) : M E unit :=
  let targetWorkDuration := sub64 frameDeadline intendedVsync in
  let targetWorkDuration :=
    div64 (mul64 targetWorkDuration targetCpuTimePercentage) 100 in
  lastTarget ← gets mLastTargetWorkDuration;
  (if (kSanityCheckLowerBound <? targetWorkDuration)
      && (targetWorkDuration <? kSanityCheckUpperBound)
      && negb (targetWorkDuration =? lastTarget)
   then
     modify (with_mLastTargetWorkDuration targetWorkDuration);;
     call_ (invoke update targetWorkDuration)
       (EvUpdateTargetWorkDuration update targetWorkDuration)
   else mret tt);;
  now ← call systemTime (λ t, [EvSystemTime t]);
  let frameDuration := sub64 now frameStartTime in
  lastDequeue ← gets mLastDequeueBufferDuration;
  let actualDuration :=
    sub64 (sub64 frameDuration (Z.min syncDelayDuration lastDequeue))
          dequeueBufferDuration in
  if (kSanityCheckLowerBound <? actualDuration)
     && (actualDuration <? kSanityCheckUpperBound)
  then call_ (invoke report actualDuration)
         (EvReportActualWorkDuration report actualDuration)
  else mret tt.

Definition run : M E unit :=
  now ← call systemTime (λ t, [EvSystemTime t]);
  queued ← gets mSyncQueued;
  let syncDelayDuration := sub64 now queued in
  context ← gets mContext;
  _ ← deref context;
  '(canUnblockUiThread, info) ← syncFrameState TreeInfo_MODE_FULL;
  let canDrawThisFrame := out_canDrawThisFrame info in
  frameComplete ← gets mFrameCompleteCallback;
  match frameComplete with
  | Some cb =>
      c ← deref context;
      call_ (addFrameCompleteListener c cb) (EvAddFrameCompleteListener cb);;
      modify (with_mFrameCompleteCallback None)
  | None => mret tt
  end;;
  (* Grab a copy of everything we need *)
  context ← gets mContext;
  callback ← gets mFrameCallback;
  modify (with_mFrameCallback None);;
  frameInfo ← gets mFrameInfo;
  let intendedVsync := frameInfo IntendedVsync in
  let frameDeadline := frameInfo FrameDeadline in
  let frameStartTime := frameInfo FrameStartTime in
  (if canUnblockUiThread then unblockUiThread else mret tt);;
  match callback with
  | Some cb =>
      c ← deref context;
      frameNr ← call (getFrameNumber c) (λ _, []);
      call_ (enqueueFrameWork c cb frameNr) (EvEnqueueFrameWork cb frameNr)
  | None => mret tt
  end;;
  dequeueBufferDuration ←
    (if canDrawThisFrame then
       c ← deref context;
       call (draw c) (λ d, [EvDraw d])
     else
       c ← deref context;
       call_ (waitOnFences c) EvWaitOnFences;;
       mret 0);
  (if negb canUnblockUiThread then unblockUiThread else mret tt);;
  update ← gets mUpdateTargetWorkDuration;
  report ← gets mReportActualWorkDuration;
  match update, report with
  | Some u, Some r =>
      reportWorkDurations u r frameDeadline intendedVsync frameStartTime
        syncDelayDuration dequeueBufferDuration
  | _, _ => mret tt
  end;;
  modify (with_mLastDequeueBufferDuration dequeueBufferDuration).

(** The producer enters [mSignal.wait]. *)
Definition begin_wait : M E unit := λ w,
  Done tt (mkWorld (task w) (env w) Waiting) [].

(** [mSignal.wait] returns once a signal has woken the producer; with no
    signal it never does. *)
Definition end_wait : M E unit := λ w,
  match waiter w with
  | Woken => Done tt (mkWorld (task w) (env w) Idle) []
  | _ => Failed Deadlock w []
  end.

(** [postAndWait]: the lock is held from the post until the wait has begun,
    so the render thread's signal cannot come before the wait; the run
    routine is executed by the render thread while the producer waits.
    The two threads are laid out one after the other: the run routine is
    taken to its end before the wait is looked at, which returns if a
    signal woke the producer and never does otherwise.  After its release
    the producer reads only mSyncResult, which the run routine no longer
    writes once the synchronisation pass is over. *)
Definition postAndWait : M E unit :=
  thread ← gets mRenderThread;
  _ ← deref thread;
  emit EvPost;;
  begin_wait;;
  run;;
  end_wait.

Definition drawFrame : M E Z :=
  context ← gets mContext;
  LOG_ALWAYS_FATAL_IF (is_null context)
    "Cannot drawFrame with no CanvasContext!";;
  modify (with_mSyncResult SyncResult.OK);;
  now ← call systemTime (λ t, [EvSystemTime t]);
  modify (with_mSyncQueued now);;
  postAndWait;;
  gets mSyncResult.

(** [n] frames, one drawFrame after the other. *)
Fixpoint drawFrames (n : nat) : M E unit :=
  match n with
  | O => mret tt
  | S n' => drawFrame;; drawFrames n'
  end.

(** A producer's calls on the layer-update queue, one after the other. *)
Definition layer_op (o : LayerOp) : M E unit :=
  match o with
  | PushLayer layer => pushLayerUpdate layer
  | RemoveLayer layer => removeLayerUpdate layer
  end.

Fixpoint layer_ops (os : list LayerOp) : M E unit :=
  match os with
  | [] => mret tt
  | o :: rest => layer_op o;; layer_ops rest
  end.

End Task.

(** ** Closed forms

    What a pass, a run and a drawFrame leave behind, written as functions of
    the task and of what the collaborators answered.  The lemmas further down
    prove that the member functions compute exactly these. *)

Section Forms.
Context {E : Type} `{!Collaborators E}.

Definition sync_info (surface canDraw : bool) (prepared : TreeInfo)
    : TreeInfo :=
  if negb surface || negb canDraw
  then set_canDrawThisFrame false prepared else prepared.

Definition sync_result (r0 : Z) (surface canDraw : bool)
    (prepared : TreeInfo) : Z :=
  let r1 :=
    if negb surface || negb canDraw then
      if negb surface
      then Z.lor r0 SyncResult.LostSurfaceRewardIfFound
      else Z.lor r0 SyncResult.ContextIsStopped
    else r0 in
  let info := sync_info surface canDraw prepared in
  let r2 :=
    if out_hasAnimations info && out_requiresUiRedraw info
    then Z.lor r1 SyncResult.UIRedrawRequired else r1 in
  if negb (out_canDrawThisFrame info)
  then Z.lor r2 SyncResult.FrameDropped else r2.

Definition sync_trace (t : DrawFrameTask) (surface canDraw : bool)
    (prepared : TreeInfo) : list Event :=
  [EvVsyncReceived (mFrameInfo t Vsync) (mFrameInfo t IntendedVsync)
     (mFrameInfo t FrameTimelineVsyncId) (mFrameInfo t FrameDeadline)
     (mFrameInfo t FrameInterval);
   EvMakeCurrent canDraw; EvUnpinImages]
  ++ (EvApply <$> mLayers t)
  ++ [EvSetContentDrawBounds (mContentDrawBounds t);
      EvPrepareTree (mSyncQueued t) (mTargetNode t) prepared;
      EvHasSurface surface]
  ++ (if negb surface || negb canDraw then [EvHasSurface surface] else []).

(** Lines 146-147 of run. *)
Definition targetWorkDuration_of (frameDeadline intendedVsync : Z) : Z :=
  div64 (mul64 (sub64 frameDeadline intendedVsync) targetCpuTimePercentage)
        100.

(** Lines 154-157 of run. *)
Definition actualDuration_of
    (now frameStartTime syncDelayDuration lastDequeue dequeue : Z) : Z :=
  sub64 (sub64 (sub64 now frameStartTime)
               (Z.min syncDelayDuration lastDequeue))
        dequeue.

(** Strictly between the two sanity bounds. *)
Definition sane (d : Z) : bool :=
  (kSanityCheckLowerBound <? d) && (d <? kSanityCheckUpperBound).

Definition target_fires (target lastTarget : Z) : bool :=
  sane target && negb (target =? lastTarget).

Definition hint_trace (u r : Callback) (target lastTarget now actual : Z)
    : list Event :=
  (if target_fires target lastTarget
   then [EvUpdateTargetWorkDuration u target] else [])
  ++ [EvSystemTime now]
  ++ (if sane actual then [EvReportActualWorkDuration r actual] else []).

(** The events of one run: the clock reading [t0] at its start, the
    synchronisation pass, and then, with [frameNr], [d] and [now] what
    getFrameNumber, draw and the last clock reading answer where run
    asks. *)
Definition run_trace (t : DrawFrameTask) (t0 : Z) (surface canDraw : bool)
    (prepared : TreeInfo) (frameNr d now : Z) : list Event :=
  let info := sync_info surface canDraw prepared in
  let dequeue := if out_canDrawThisFrame info then d else 0 in
  [EvSystemTime t0]
  ++ sync_trace t surface canDraw prepared
  ++ match mFrameCompleteCallback t with
     | Some cb => [EvAddFrameCompleteListener cb]
     | None => []
     end
  ++ (if prepareTextures info then [EvSignal] else [])
  ++ match mFrameCallback t with
     | Some cb => [EvEnqueueFrameWork cb frameNr]
     | None => []
     end
  ++ [if out_canDrawThisFrame info then EvDraw d else EvWaitOnFences]
  ++ (if prepareTextures info then [] else [EvSignal])
  ++ match mUpdateTargetWorkDuration t, mReportActualWorkDuration t with
     | Some u, Some r =>
         hint_trace u r
           (targetWorkDuration_of (mFrameInfo t FrameDeadline)
              (mFrameInfo t IntendedVsync))
           (mLastTargetWorkDuration t) now
           (actualDuration_of now (mFrameInfo t FrameStartTime)
              (sub64 t0 (mSyncQueued t)) (mLastDequeueBufferDuration t)
              dequeue)
     | _, _ => []
     end.

(** The task as one run leaves it. *)
Definition after_run (t : DrawFrameTask) (surface canDraw : bool)
    (prepared : TreeInfo) (d : Z) : DrawFrameTask :=
  let info := sync_info surface canDraw prepared in
  let target :=
    targetWorkDuration_of (mFrameInfo t FrameDeadline)
      (mFrameInfo t IntendedVsync) in
  {| mRenderThread := mRenderThread t;
     mContext := mContext t;
     mTargetNode := mTargetNode t;
     mContentDrawBounds := mContentDrawBounds t;
     mSyncResult := sync_result (mSyncResult t) surface canDraw prepared;
     mSyncQueued := mSyncQueued t;
     mLayers := [];
     mFrameInfo := mFrameInfo t;
     mFrameCallback := None;
     mFrameCompleteCallback := None;
     mUpdateTargetWorkDuration := mUpdateTargetWorkDuration t;
     mReportActualWorkDuration := mReportActualWorkDuration t;
     mLastTargetWorkDuration :=
       match mUpdateTargetWorkDuration t, mReportActualWorkDuration t with
       | Some _, Some _ =>
           if target_fires target (mLastTargetWorkDuration t)
           then target else mLastTargetWorkDuration t
       | _, _ => mLastTargetWorkDuration t
       end;
     mLastDequeueBufferDuration :=
       if out_canDrawThisFrame info then d else 0 |}.

(** The world in which run calls syncFrameState: the clock has been read. *)
Definition before_sync (w : World E) : World E :=
  mkWorld (task w) (systemTime (env w)).2 (waiter w).

(** The world in which the render thread executes the run routine that
    drawFrame posts: Sync Result reset, enqueue time recorded, producer
    waiting. *)
Definition posted (w : World E) : World E :=
  mkWorld
    (with_mSyncQueued (systemTime (env w)).1
       (with_mSyncResult SyncResult.OK (task w)))
    (systemTime (env w)).2 Waiting.

End Forms.

(** ** A scripted stand-in for the collaborators

    Answers fixed in advance, to run the member functions on concrete
    inputs. *)

Record Script := mkScript {
  s_clock : Z;             (* what systemTime answers next *)
  s_tick : Z;              (* how far a reading advances the clock *)
  s_current : bool;        (* what makeCurrent answers *)
  s_surface : bool;        (* what hasSurface answers *)
  s_tree : TreeInfo;       (* what prepareTree leaves in info *)
  s_dequeue : Z;           (* what draw answers *)
  s_frameNumber : Z        (* what getFrameNumber answers *)
}.

Global Instance scripted : Collaborators Script := {|
  systemTime e :=
    (s_clock e,
     mkScript (s_clock e + s_tick e) (s_tick e) (s_current e) (s_surface e)
       (s_tree e) (s_dequeue e) (s_frameNumber e));
  targetCpuTimePercentage := 70;
  vsyncReceived _ _ _ _ _ e := e;
  makeCurrent _ e := (s_current e, e);
  unpinImages _ e := e;
  layerApply _ e := e;
  setContentDrawBounds _ _ e := e;
  prepareTree _ _ _ _ _ e := (s_tree e, e);
  hasSurface _ e := s_surface e;
  addFrameCompleteListener _ _ e := e;
  getFrameNumber _ e := (s_frameNumber e, e);
  enqueueFrameWork _ _ _ e := e;
  draw _ e := (s_dequeue e, e);
  waitOnFences _ e := e;
  invoke _ _ e := e
|}.

(** A frame of 16.6 ms whose work started 5 ms before the clock's first
    reading. *)
Definition sample_frameInfo : FrameInfo := λ i,
  match i with
  | Vsync => 1000000
  | IntendedVsync => 1000000
  | FrameDeadline => 17600000
  | FrameInterval => 16600000
  | FrameTimelineVsyncId => 7
  | FrameStartTime => 95000000
  end.

(** A task as constructed, and the same task after
    [setContext(thread, context, node)] and
    [setHintSessionCallbacks(update, report)]. *)
Definition fresh_task : DrawFrameTask :=
  DrawFrameTask_new 0 sample_frameInfo 0 0.

Definition wired_task : DrawFrameTask :=
  with_hintCallbacks (Some 10%positive) (Some 11%positive)
    (with_context (Some 1%positive) (Some 2%positive) (Some 3%positive)
       fresh_task).

(** Everything in order: a surface, a current context, room in the texture
    cache, a drawable frame; the clock starts at 100 ms and advances 1 ms a
    reading; draw spends 0.2 ms dequeuing. *)
Definition sample_script : Script :=
  mkScript 100000000 1000000 true true (mkTreeInfo true false false true)
    200000 42.

(** The same with the texture cache out of room. *)
Definition pressed_script : Script :=
  mkScript 100000000 1000000 true true (mkTreeInfo false false false true)
    200000 42.

(** The same with no surface. *)
Definition surfaceless_script : Script :=
  mkScript 100000000 1000000 true false (mkTreeInfo true false false true)
    200000 42.

Definition fresh_world : World Script := mkWorld fresh_task sample_script Idle.
Definition sample_world : World Script := mkWorld wired_task sample_script Idle.
Definition pressed_world : World Script :=
  mkWorld wired_task pressed_script Idle.
Definition surfaceless_world : World Script :=
  mkWorld wired_task surfaceless_script Idle.

(** A frame whose work started 0.25 ms before the clock reading that ends
    the run. *)
Definition late_frameInfo : FrameInfo := λ i,
  match i with
  | FrameStartTime => 101750000
  | _ => sample_frameInfo i
  end.

Definition late_world : World Script :=
  mkWorld
    (with_hintCallbacks (Some 10%positive) (Some 11%positive)
       (with_context (Some 1%positive) (Some 2%positive) (Some 3%positive)
          (DrawFrameTask_new 0 late_frameInfo 0 0)))
    sample_script Idle.

(** A task whose context was taken away again with
    [setContext(nullptr, nullptr, nullptr)] while layer 5 was queued. *)
Definition unwired_world : World Script :=
  mkWorld
    (with_context None None None (with_mLayers [5%positive] wired_task))
    sample_script Idle.

(** ** Reasoning about computations *)

(** [m] run from [w] returns, and the result, the world and the events it
    leaves satisfy [Q]. *)
Definition wp {E A} (m : M E A) (Q : A → World E → list Event → Prop)
    (w : World E) : Prop :=
  match m w with
  | Done a w' tr => Q a w' tr
  | Failed _ _ _ => False
  end.

Section Rules.
Context {E : Type} `{!Collaborators E}.
Implicit Types (w : World E) (tr : list Event).

Lemma wp_Done {A} (m : M E A) Q w :
  wp m Q w ↔ ∃ a w' tr, m w = Done a w' tr ∧ Q a w' tr.
Proof.
  unfold wp. split.
  - destruct (m w) as [a w' tr|]; [eauto|done].
  - intros (a & w' & tr & -> & HQ). done.
Qed.

Lemma wp_mono {A} (m : M E A) (Q Q' : A → World E → list Event → Prop) w :
  wp m Q w → (∀ a w' tr, Q a w' tr → Q' a w' tr) → wp m Q' w.
Proof. unfold wp. destruct (m w); eauto. Qed.

Lemma wp_bind {A B} (m : M E A) (k : A → M E B) Q w :
  wp m (λ a w1 tr1, wp (k a) (λ b w2 tr2, Q b w2 (tr1 ++ tr2)) w1) w →
  wp (m ≫= k) Q w.
Proof.
  unfold wp, mbind, M_bind, bind.
  destruct (m w) as [a w1 tr1|]; [|done].
  destruct (k a w1); done.
Qed.

Lemma wp_ret {A} (a : A) Q w : Q a w [] → wp (mret a) Q w.
Proof. done. Qed.

Lemma wp_gets {A} (f : DrawFrameTask → A) Q w :
  Q (f (task w)) w [] → wp (gets f) Q w.
Proof. done. Qed.

Lemma wp_modify f Q w :
  Q tt (mkWorld (f (task w)) (env w) (waiter w)) [] → wp (modify f) Q w.
Proof. done. Qed.

Lemma wp_or_mSyncResult flag Q w :
  Q tt (mkWorld (with_mSyncResult (Z.lor (mSyncResult (task w)) flag) (task w))
          (env w) (waiter w)) [] →
  wp (or_mSyncResult flag) Q w.
Proof. done. Qed.

(** Whatever a collaborator answers and however it changes. *)
Lemma wp_call {A} (f : E → A * E) ev Q w :
  (∀ a e', Q a (mkWorld (task w) e' (waiter w)) (ev a)) →
  wp (call f ev) Q w.
Proof. intros HQ. apply HQ. Qed.

Lemma wp_call_ (f : E → E) ev Q w :
  (∀ e', Q tt (mkWorld (task w) e' (waiter w)) [ev]) → wp (call_ f ev) Q w.
Proof. intros HQ. apply HQ. Qed.

Lemma wp_call_exact {A} (f : E → A * E) ev Q w :
  Q (f (env w)).1 (mkWorld (task w) (f (env w)).2 (waiter w))
    (ev (f (env w)).1) →
  wp (call f ev) Q w.
Proof. done. Qed.

Lemma wp_eq {A} (m : M E A) Q w a w' tr :
  m w = Done a w' tr → Q a w' tr → wp m Q w.
Proof. unfold wp. by intros ->. Qed.

Lemma wp_observe {A} (f : E → A) ev Q w :
  Q (f (env w)) w [ev (f (env w))] → wp (observe f ev) Q w.
Proof. done. Qed.

Lemma wp_deref a Q w : Q a w [] → wp (deref (Some a)) Q w.
Proof. done. Qed.

Lemma wp_no_fatal msg Q w : Q tt w [] → wp (LOG_ALWAYS_FATAL_IF false msg) Q w.
Proof. done. Qed.

Lemma wp_unblockUiThread Q w :
  Q tt (mkWorld (task w) (env w) (signalled (waiter w))) [EvSignal] →
  wp unblockUiThread Q w.
Proof. done. Qed.

Lemma wp_emit ev Q w : Q tt w [ev] → wp (emit ev) Q w.
Proof. done. Qed.

Lemma wp_begin_wait Q w :
  Q tt (mkWorld (task w) (env w) Waiting) [] → wp begin_wait Q w.
Proof. done. Qed.

Lemma wp_end_wait Q w :
  waiter w = Woken →
  Q tt (mkWorld (task w) (env w) Idle) [] → wp end_wait Q w.
Proof. unfold wp, end_wait. by intros ->. Qed.

Lemma wp_apply_layers layers Q w :
  (∀ e', Q tt (mkWorld (task w) e' (waiter w)) (EvApply <$> layers)) →
  wp (apply_layers layers) Q w.
Proof.
  revert Q w. induction layers as [|l rest IH]; intros Q w HQ.
  - destruct w. apply HQ.
  - cbn [apply_layers]. apply wp_bind, wp_call_. intros e1.
    apply IH. intros e2. apply HQ.
Qed.

End Rules.

(** One step of symbolic execution. *)
Ltac wp_prim :=
  lazymatch goal with
  | |- wp (mbind _ _) _ _ => apply wp_bind
  | |- wp (mret _) _ _ => apply wp_ret
  | |- wp (gets _) _ _ => apply wp_gets
  | |- wp (modify _) _ _ => apply wp_modify
  | |- wp (or_mSyncResult _) _ _ => apply wp_or_mSyncResult
  | |- wp (call _ _) _ _ => apply wp_call; intros ? ?
  | |- wp (call_ _ _) _ _ => apply wp_call_; intros ?
  | |- wp (observe _ _) _ _ => apply wp_observe
  | |- wp (deref (Some _)) _ _ => apply wp_deref
  | |- wp (LOG_ALWAYS_FATAL_IF false _) _ _ => apply wp_no_fatal
  | |- wp unblockUiThread _ _ => apply wp_unblockUiThread
  | |- wp (emit _) _ _ => apply wp_emit
  | |- wp begin_wait _ _ => apply wp_begin_wait
  | |- wp (apply_layers _) _ _ => apply wp_apply_layers; intros ?
  end.

Ltac wp_simpl :=
  cbn [task env waiter mRenderThread mContext mTargetNode mContentDrawBounds
       mSyncResult mSyncQueued mLayers mFrameInfo mFrameCallback
       mFrameCompleteCallback mUpdateTargetWorkDuration
       mReportActualWorkDuration mLastTargetWorkDuration
       mLastDequeueBufferDuration
       with_context with_hintCallbacks with_mSyncResult with_mSyncQueued
       with_mLayers with_mFrameCallback with_mFrameCompleteCallback
       with_mLastTargetWorkDuration with_mLastDequeueBufferDuration
       prepareTextures out_hasAnimations out_requiresUiRedraw
       out_canDrawThisFrame set_canDrawThisFrame
       is_null app fst snd negb orb andb].

Ltac wp_known :=
  repeat match goal with
         | H : ?t = _ |- context [?t] => rewrite H
         end.

Ltac wp_steps := repeat (wp_prim; wp_simpl; wp_known; wp_simpl).

(** The same, keeping what the clock answers. *)
Ltac wp_exact_steps :=
  repeat (lazymatch goal with
          | |- wp (call systemTime _) _ _ => apply wp_call_exact
          | |- wp (mbind (call systemTime _) _) _ _ =>
              apply wp_bind, wp_call_exact
          | _ => wp_prim
          end; wp_simpl).

(** Case analysis on what a stuck conditional tests. *)
Ltac destruct_cond b :=
  lazymatch b with
  | negb ?x => destruct_cond x
  | orb ?x _ => destruct_cond x
  | andb ?x _ => destruct_cond x
  | _ => destruct b eqn:?
  end.

Ltac wp_case :=
  lazymatch goal with
  | |- wp (if ?b then _ else _) _ _ => destruct_cond b
  | |- wp (match ?o with Some _ => _ | None => _ end) _ _ => destruct o eqn:?
  end.

Ltac wp_run := repeat (wp_steps; try (wp_case; wp_simpl)).

(** ** What one pass leaves behind, in closed form *)

Section Closed.
Context {E : Type} `{!Collaborators E}.

Lemma syncFrameState_Done info0 w thread c :
  mRenderThread (task w) = Some thread →
  mContext (task w) = Some c →
  wp (syncFrameState info0)
    (λ r w' tr, ∃ surface canDraw prepared e',
       tr = sync_trace (task w) surface canDraw prepared ∧
       r = (prepareTextures (sync_info surface canDraw prepared),
            sync_info surface canDraw prepared) ∧
       w' = mkWorld
              (with_mSyncResult
                 (sync_result (mSyncResult (task w)) surface canDraw prepared)
                 (with_mLayers [] (task w)))
              e' (waiter w)) w.
Proof.
  destruct w as [t e ws]. destruct t. simpl. intros -> ->.
  unfold syncFrameState. wp_steps.
  match goal with i : TreeInfo |- _ => destruct i as [pt ha rr cd] end.
  wp_run.
  all: eexists _, _, _, _;
    (split_and!; [unfold sync_trace; wp_simpl; repeat f_equal|..]);
    reflexivity.
Qed.

Lemma reportWorkDurations_Done u r fd iv fs sd dq (w : World E) :
  wp (reportWorkDurations u r fd iv fs sd dq)
    (λ _ w' tr, ∃ now e',
       let target := targetWorkDuration_of fd iv in
       let lastTarget := mLastTargetWorkDuration (task w) in
       let actual :=
         actualDuration_of now fs sd (mLastDequeueBufferDuration (task w))
           dq in
       tr = hint_trace u r target lastTarget now actual ∧
       w' = mkWorld
              (if target_fires target lastTarget
               then with_mLastTargetWorkDuration target (task w)
               else task w)
              e' (waiter w)) w.
Proof.
  destruct w as [t e ws]. unfold reportWorkDurations. wp_run.
  all: lazymatch goal with |- context [EvSystemTime ?x] => exists x end;
    eexists;
    unfold hint_trace, target_fires, sane, actualDuration_of,
      targetWorkDuration_of;
    wp_known; wp_simpl; wp_known; split; reflexivity.
Qed.

(** One run, in full: what its synchronisation pass returns and leaves, and
    what the run as a whole leaves. *)
Lemma run_Done (w : World E) thread c :
  mRenderThread (task w) = Some thread →
  mContext (task w) = Some c →
  ∃ surface canDraw prepared e1 frameNr d now e',
    syncFrameState TreeInfo_MODE_FULL (before_sync w) =
      Done (prepareTextures (sync_info surface canDraw prepared),
            sync_info surface canDraw prepared)
        (mkWorld
           (with_mSyncResult
              (sync_result (mSyncResult (task w)) surface canDraw prepared)
              (with_mLayers [] (task w)))
           e1 (waiter w))
        (sync_trace (task w) surface canDraw prepared) ∧
    run w =
      Done tt
        (mkWorld (after_run (task w) surface canDraw prepared d) e'
           (signalled (waiter w)))
        (run_trace (task w) (systemTime (env w)).1 surface canDraw prepared
           frameNr d now).
Proof.
  intros Ht Hc.
  destruct (proj1 (wp_Done _ _ _)
              (syncFrameState_Done TreeInfo_MODE_FULL (before_sync w)
                 thread c Ht Hc))
    as (r & w1 & trs & Hs & s & cd & p & e1 & -> & -> & ->).
  exists s, cd, p, e1.
  cut (wp run
         (λ _ w' tr, ∃ frameNr d now e',
            tr = run_trace (task w) (systemTime (env w)).1 s cd p
                   frameNr d now ∧
            w' = mkWorld (after_run (task w) s cd p d) e'
                   (signalled (waiter w))) w).
  { intros ([] & w' & tr & Hr & n & d & now & e' & -> & ->)%wp_Done.
    exists n, d, now, e'. done. }
  destruct w as [t e ws]. destruct t. cbn in Ht, Hc. subst.
  unfold before_sync in Hs. cbn [task env waiter] in Hs |- *.
  unfold run. wp_exact_steps.
  eapply wp_eq; [exact Hs|]. clear Hs. wp_simpl.
  wp_run.
  all: try (eapply wp_mono; [apply reportWorkDurations_Done|];
            intros [] ? ? (now & ? & -> & ->); wp_simpl).
  all: wp_steps.
  all: lazymatch goal with
       | |- context [EvEnqueueFrameWork _ ?x] => exists x
       | _ => exists 0
       end.
  all: lazymatch goal with
       | |- context [EvDraw ?x] => exists x
       | _ => exists 0
       end.
  all: lazymatch goal with
       | |- context [hint_trace _ _ _ _ ?x _] => exists x
       | _ => exists 0
       end.
  all: eexists; unfold run_trace, after_run; wp_simpl; wp_known; wp_simpl.
  all: split; [by rewrite ?app_nil_r|].
  all: try destruct (target_fires _ _); reflexivity.
Qed.

Lemma drawFrame_run (w : World E) thread c :
  mRenderThread (task w) = Some thread →
  mContext (task w) = Some c →
  ∃ w' tr,
    run (posted w) = Done tt w' tr ∧
    waiter w' = Woken ∧
    drawFrame w =
      Done (mSyncResult (task w')) (mkWorld (task w') (env w') Idle)
        (EvSystemTime (systemTime (env w)).1 :: EvPost :: tr).
Proof.
  intros Ht Hc.
  destruct (run_Done (posted w) thread c)
    as (s & cd & p & e1 & n & d & now & e' & _ & Hr);
    [by destruct w as [[] ? ?]..|].
  eexists _, _. split; [exact Hr|]. split; [done|].
  cut (wp drawFrame
         (λ r w' tr, Done (E:=E) r w' tr =
            Done (sync_result SyncResult.OK s cd p)
              (mkWorld (after_run (task (posted w)) s cd p d) e' Idle)
              (EvSystemTime (systemTime (env w)).1 :: EvPost ::
               run_trace (task (posted w)) (systemTime (env (posted w))).1
                 s cd p n d now)) w).
  { unfold wp. destruct (drawFrame w); [|done]. intros ->. done. }
  destruct w as [t e ws]. destruct t. cbn in Ht, Hc. subst.
  unfold drawFrame, postAndWait. wp_exact_steps.
  eapply wp_eq; [exact Hr|]. wp_simpl.
  apply wp_end_wait; [done|]. wp_steps. by rewrite !app_nil_r.
Qed.

(** *** Events of the closed forms *)

Lemma count_app p (l1 l2 : list Event) :
  count p (l1 ++ l2) = (count p l1 + count p l2)%nat.
Proof. unfold count. by rewrite List.filter_app, length_app. Qed.

Lemma count_cons p e (l : list Event) :
  count p (e :: l) = ((if p e then 1 else 0) + count p l)%nat.
Proof. unfold count. cbn. by destruct (p e). Qed.

Lemma count_none p (l : list Event) :
  (∀ e, e ∈ l → p e = false) → count p l = 0%nat.
Proof.
  induction l as [|e l IH]; intros H; [done|].
  rewrite count_cons, H, IH; [done| |by left].
  intros e' He'. apply H. by right.
Qed.

Lemma sync_trace_events t surface canDraw prepared e :
  e ∈ sync_trace t surface canDraw prepared → is_sync_event e = true.
Proof.
  unfold sync_trace. intros H.
  destruct (negb surface || negb canDraw); set_unfold in H; naive_solver.
Qed.

Lemma hint_trace_events u r target lastTarget now actual e :
  e ∈ hint_trace u r target lastTarget now actual ↔
    (e = EvUpdateTargetWorkDuration u target ∧
     target_fires target lastTarget = true) ∨
    e = EvSystemTime now ∨
    (e = EvReportActualWorkDuration r actual ∧ sane actual = true).
Proof.
  unfold hint_trace.
  destruct (target_fires target lastTarget), (sane actual);
    cbn [app]; rewrite ?elem_of_cons, ?elem_of_nil; naive_solver.
Qed.

Lemma count_sync_trace p t surface canDraw prepared :
  (∀ e, is_sync_event e = true → p e = false) →
  count p (sync_trace t surface canDraw prepared) = 0%nat.
Proof.
  intros Hp. apply count_none. intros e He.
  by apply sync_trace_events, Hp in He.
Qed.

Lemma count_hint_trace p u r target lastTarget now actual :
  p (EvUpdateTargetWorkDuration u target) = false →
  p (EvSystemTime now) = false →
  p (EvReportActualWorkDuration r actual) = false →
  count p (hint_trace u r target lastTarget now actual) = 0%nat.
Proof.
  intros H1 H2 H3. apply count_none. intros e He.
  apply hint_trace_events in He. naive_solver.
Qed.

End Closed.

(** Counting the events of a closed-form trace. *)
Ltac count_simpl :=
  repeat first
    [ rewrite count_app
    | rewrite count_cons
    | rewrite count_sync_trace by (by intros [])
    | rewrite count_hint_trace by done ];
  cbn [count List.filter length is_signal is_draw_or_wait Nat.add].

Section Shape.
Context {E : Type} `{!Collaborators E}.

Lemma run_trace_signals t t0 surface canDraw prepared frameNr d now :
  count is_signal
    (run_trace t t0 surface canDraw prepared frameNr d now) = 1%nat.
Proof.
  unfold run_trace.
  destruct (mFrameCompleteCallback t), (mFrameCallback t),
    (prepareTextures _), (out_canDrawThisFrame _),
    (mUpdateTargetWorkDuration t), (mReportActualWorkDuration t);
    count_simpl; done.
Qed.

Lemma run_trace_draws t t0 surface canDraw prepared frameNr d now :
  count is_draw_or_wait
    (run_trace t t0 surface canDraw prepared frameNr d now) = 1%nat.
Proof.
  unfold run_trace.
  destruct (mFrameCompleteCallback t), (mFrameCallback t),
    (prepareTextures _), (out_canDrawThisFrame _),
    (mUpdateTargetWorkDuration t), (mReportActualWorkDuration t);
    count_simpl; done.
Qed.

Lemma filter_none p (l : list Event) :
  (∀ e, e ∈ l → p e = false) → List.filter p l = [].
Proof.
  induction l as [|e l IH]; intros H; [done|].
  cbn. rewrite H, IH; [done| |by left].
  intros e' He'. apply H. by right.
Qed.

(** The clock readings of a run with both hint callbacks installed. *)
Lemma run_trace_clock t t0 surface canDraw prepared frameNr d now u r :
  mUpdateTargetWorkDuration t = Some u →
  mReportActualWorkDuration t = Some r →
  List.filter is_clock
    (run_trace t t0 surface canDraw prepared frameNr d now) =
  [EvSystemTime t0; EvSystemTime now].
Proof.
  intros Hu Hr. unfold run_trace, hint_trace. rewrite Hu, Hr.
  rewrite !List.filter_app.
  rewrite (filter_none _ (sync_trace _ _ _ _)).
  2: { intros e He%sync_trace_events. by destruct e. }
  destruct (mFrameCompleteCallback t), (mFrameCallback t),
    (prepareTextures _), (out_canDrawThisFrame _),
    (target_fires _ _), (sane _); reflexivity.
Qed.

(** Where the signal sits in the trace of a run. *)
Lemma run_trace_split t t0 surface canDraw prepared frameNr d now :
  let canUnblockUiThread :=
    prepareTextures (sync_info surface canDraw prepared) in
  ∃ mid after,
    run_trace t t0 surface canDraw prepared frameNr d now =
      ([EvSystemTime t0] ++ sync_trace t surface canDraw prepared ++ mid)
      ++ EvSignal :: after ∧
    count is_draw_or_wait mid =
      (if canUnblockUiThread then 0 else 1)%nat ∧
    count is_draw_or_wait after =
      (if canUnblockUiThread then 1 else 0)%nat.
Proof.
  unfold run_trace. cbn zeta.
  destruct (prepareTextures _).
  - eexists (match mFrameCompleteCallback t with
             | Some cb => [EvAddFrameCompleteListener cb] | None => [] end),
            _.
    split_and!.
    + cbn [app]. rewrite <- !app_assoc. reflexivity.
    + by destruct (mFrameCompleteCallback t).
    + destruct (mFrameCallback t), (out_canDrawThisFrame _),
        (mUpdateTargetWorkDuration t), (mReportActualWorkDuration t);
        count_simpl; done.
  - eexists (match mFrameCompleteCallback t with
             | Some cb => [EvAddFrameCompleteListener cb] | None => [] end
             ++ match mFrameCallback t with
                | Some cb => [EvEnqueueFrameWork cb frameNr] | None => [] end
             ++ [if out_canDrawThisFrame (sync_info surface canDraw prepared)
                 then EvDraw d else EvWaitOnFences]),
            _.
    split_and!.
    + cbn [app]. rewrite <- !app_assoc. reflexivity.
    + destruct (mFrameCompleteCallback t), (mFrameCallback t),
        (out_canDrawThisFrame _); count_simpl; done.
    + destruct (mUpdateTargetWorkDuration t),
        (mReportActualWorkDuration t); count_simpl; done.
Qed.

Lemma elem_of_option_list {A} (o : option A) (f : A → Event) e :
  e ∈ match o with Some a => [f a] | None => [] end ↔
  ∃ a, o = Some a ∧ e = f a.
Proof. destruct o; set_unfold; naive_solver. Qed.

(** Every event of a run, by the step that emits it. *)
Lemma run_trace_events t t0 surface canDraw prepared frameNr d now e :
  let info := sync_info surface canDraw prepared in
  let dequeue := if out_canDrawThisFrame info then d else 0 in
  e ∈ run_trace t t0 surface canDraw prepared frameNr d now ↔
    e = EvSystemTime t0 ∨
    e ∈ sync_trace t surface canDraw prepared ∨
    (∃ cb, mFrameCompleteCallback t = Some cb ∧
           e = EvAddFrameCompleteListener cb) ∨
    e = EvSignal ∨
    (∃ cb, mFrameCallback t = Some cb ∧ e = EvEnqueueFrameWork cb frameNr) ∨
    (out_canDrawThisFrame info = true ∧ e = EvDraw d) ∨
    (out_canDrawThisFrame info = false ∧ e = EvWaitOnFences) ∨
    (∃ u r, mUpdateTargetWorkDuration t = Some u ∧
            mReportActualWorkDuration t = Some r ∧
            e ∈ hint_trace u r
                  (targetWorkDuration_of (mFrameInfo t FrameDeadline)
                     (mFrameInfo t IntendedVsync))
                  (mLastTargetWorkDuration t) now
                  (actualDuration_of now (mFrameInfo t FrameStartTime)
                     (sub64 t0 (mSyncQueued t))
                     (mLastDequeueBufferDuration t) dequeue)).
Proof.
  cbn zeta. unfold run_trace.
  generalize (sync_trace t surface canDraw prepared) as trs.
  generalize (sync_info surface canDraw prepared) as info.
  intros info trs.
  rewrite !elem_of_app, !elem_of_option_list, list_elem_of_singleton.
  destruct (prepareTextures info), (out_canDrawThisFrame info),
    (mUpdateTargetWorkDuration t), (mReportActualWorkDuration t);
    rewrite ?elem_of_cons, ?elem_of_nil; naive_solver.
Qed.

Lemma sync_trace_hasSurface t surface canDraw prepared b :
  EvHasSurface b ∈ sync_trace t surface canDraw prepared ↔ b = surface.
Proof.
  unfold sync_trace. destruct (negb surface || negb canDraw);
    set_unfold; naive_solver.
Qed.

Lemma sync_trace_makeCurrent t surface canDraw prepared b :
  EvMakeCurrent b ∈ sync_trace t surface canDraw prepared ↔ b = canDraw.
Proof.
  unfold sync_trace. destruct (negb surface || negb canDraw);
    set_unfold; naive_solver.
Qed.

Lemma sync_trace_prepareTree t surface canDraw prepared q n i :
  EvPrepareTree q n i ∈ sync_trace t surface canDraw prepared ↔
    q = mSyncQueued t ∧ n = mTargetNode t ∧ i = prepared.
Proof.
  unfold sync_trace. destruct (negb surface || negb canDraw);
    set_unfold; naive_solver.
Qed.

(** The synchronisation events of a run are those of its pass. *)
Lemma run_trace_sync t t0 surface canDraw prepared frameNr d now e :
  is_sync_event e = true →
  e ∈ run_trace t t0 surface canDraw prepared frameNr d now ↔
  e ∈ sync_trace t surface canDraw prepared.
Proof.
  intros He. rewrite run_trace_events. split; [|by auto].
  intros [->|[?|[(?&?&->)|[->|[(?&?&->)|[[? ->]|[[? ->]|(u&r&?&?&H)]]]]]]];
    try done.
  apply hint_trace_events in H as [[-> _]|[->|[-> _]]]; done.
Qed.

(** *** Flags *)

Lemma has_flag_lor r f g :
  has_flag (Z.lor r f) g = has_flag r g || has_flag f g.
Proof.
  unfold has_flag. rewrite Z.land_lor_distr_l, <- negb_andb. f_equal.
  apply eq_true_iff_eq.
  rewrite andb_true_iff, !Z.eqb_eq. apply Z.lor_eq_0_iff.
Qed.

Lemma has_flag_OK f : has_flag SyncResult.OK f = false.
Proof. done. Qed.

(** The four flags of the Sync Result after a pass that began at [r0]. *)
Lemma sync_result_flags r0 surface canDraw prepared :
  let r := sync_result r0 surface canDraw prepared in
  has_flag r SyncResult.LostSurfaceRewardIfFound =
    has_flag r0 SyncResult.LostSurfaceRewardIfFound || negb surface ∧
  has_flag r SyncResult.ContextIsStopped =
    has_flag r0 SyncResult.ContextIsStopped || (surface && negb canDraw) ∧
  has_flag r SyncResult.UIRedrawRequired =
    has_flag r0 SyncResult.UIRedrawRequired
    || (out_hasAnimations prepared && out_requiresUiRedraw prepared) ∧
  has_flag r SyncResult.FrameDropped =
    has_flag r0 SyncResult.FrameDropped
    || negb (out_canDrawThisFrame (sync_info surface canDraw prepared)).
Proof.
  unfold sync_result, sync_info.
  destruct prepared as [pt ha rr cdf], surface, canDraw, ha, rr, cdf;
    cbn [negb orb andb out_hasAnimations out_requiresUiRedraw
         out_canDrawThisFrame set_canDrawThisFrame];
    rewrite ?has_flag_lor;
    repeat split;
    repeat match goal with
           | |- context [has_flag ?a ?b] =>
               is_var r0;
               lazymatch a with
               | r0 => fail
               | _ => change (has_flag a b) with true
                      || change (has_flag a b) with false
               end
           end;
    rewrite ?orb_false_r, ?orb_true_r; reflexivity.
Qed.

(** One drawFrame, in full: the synchronisation pass and the run routine it
    posts, and what the call returns and leaves. *)
Lemma drawFrame_Done (w : World E) thread c :
  mRenderThread (task w) = Some thread →
  mContext (task w) = Some c →
  ∃ surface canDraw prepared e1 frameNr d now e',
    let t := task (posted w) in
    let t0 := (systemTime (env (posted w))).1 in
    let info := sync_info surface canDraw prepared in
    syncFrameState TreeInfo_MODE_FULL (before_sync (posted w)) =
      Done (prepareTextures info, info)
        (mkWorld
           (with_mSyncResult
              (sync_result SyncResult.OK surface canDraw prepared)
              (with_mLayers [] t))
           e1 Waiting)
        (sync_trace t surface canDraw prepared) ∧
    run (posted w) =
      Done tt (mkWorld (after_run t surface canDraw prepared d) e' Woken)
        (run_trace t t0 surface canDraw prepared frameNr d now) ∧
    drawFrame w =
      Done (sync_result SyncResult.OK surface canDraw prepared)
        (mkWorld (after_run t surface canDraw prepared d) e' Idle)
        (EvSystemTime (systemTime (env w)).1 :: EvPost ::
         run_trace t t0 surface canDraw prepared frameNr d now).
Proof.
  intros Ht Hc.
  destruct (drawFrame_run w thread c Ht Hc) as (w' & tr & Hrun & _ & Hdraw).
  destruct (run_Done (posted w) thread c)
    as (s & cd & p & e1 & n & d & now & e' & Hsync & Hrun');
    [by destruct w as [[] ? ?]..|].
  exists s, cd, p, e1, n, d, now, e'. cbn zeta.
  split; [exact Hsync|]. split; [exact Hrun'|].
  rewrite Hdraw. rewrite Hrun' in Hrun. by simplify_eq.
Qed.

(** *** Bounds and overflow *)

Lemma sane_spec d : sane d = true ↔ 100000 < d < 10000000000.
Proof.
  unfold sane, kSanityCheckLowerBound, kSanityCheckUpperBound.
  rewrite andb_true_iff, !Z.ltb_lt. done.
Qed.

Lemma target_fires_spec target lastTarget :
  target_fires target lastTarget = true ↔
  100000 < target < 10000000000 ∧ target ≠ lastTarget.
Proof.
  unfold target_fires.
  rewrite andb_true_iff, sane_spec, negb_true_iff, Z.eqb_neq. done.
Qed.

Lemma wrap64_id z : in_int64 z → wrap64 z = z.
Proof.
  unfold in_int64, wrap64.
  change (2 ^ 63) with 9223372036854775808.
  change (2 ^ 64) with 18446744073709551616.
  intros H. rewrite Z.mod_small; lia.
Qed.

Lemma in_int64_quot z : in_int64 z → in_int64 (z ÷ 100).
Proof.
  unfold in_int64. change (2 ^ 63) with 9223372036854775808. intros H.
  destruct (Z.le_gt_cases 0 z) as [Hz|Hz].
  - pose proof (Z.quot_pos z 100 Hz ltac:(lia)).
    pose proof (Z.quot_le_upper_bound z 100 z ltac:(lia) ltac:(lia)). lia.
  - pose proof (Z.quot_opp_l z 100 ltac:(lia)) as Ho.
    pose proof (Z.quot_pos (- z) 100 ltac:(lia) ltac:(lia)).
    pose proof (Z.quot_le_upper_bound (- z) 100 (- z) ltac:(lia) ltac:(lia)).
    lia.
Qed.

(** Without overflow the target is the formula over the integers. *)
Lemma targetWorkDuration_of_exact frameDeadline intendedVsync :
  in_int64 (frameDeadline - intendedVsync) →
  in_int64 ((frameDeadline - intendedVsync) * targetCpuTimePercentage) →
  targetWorkDuration_of frameDeadline intendedVsync =
    ((frameDeadline - intendedVsync) * targetCpuTimePercentage) ÷ 100.
Proof.
  intros H1 H2. unfold targetWorkDuration_of, div64, mul64, sub64.
  rewrite (wrap64_id _ H1), (wrap64_id _ H2).
  by apply wrap64_id, in_int64_quot.
Qed.

(** Without overflow the actual duration is the formula over the integers. *)
Lemma actualDuration_of_exact now frameStartTime syncDelay lastDequeue dequeue :
  in_int64 (now - frameStartTime) →
  in_int64 (now - frameStartTime - Z.min syncDelay lastDequeue) →
  in_int64 (now - frameStartTime - Z.min syncDelay lastDequeue - dequeue) →
  actualDuration_of now frameStartTime syncDelay lastDequeue dequeue =
    (now - frameStartTime) - Z.min syncDelay lastDequeue - dequeue.
Proof.
  intros H1 H2 H3. unfold actualDuration_of, sub64.
  by rewrite (wrap64_id _ H1), (wrap64_id _ H2), (wrap64_id _ H3).
Qed.

(** What a run with both hint callbacks installed reports as actual work
    duration. *)
Lemma run_trace_reports t t0 surface canDraw prepared frameNr d now u r cb v :
  mUpdateTargetWorkDuration t = Some u →
  mReportActualWorkDuration t = Some r →
  let dequeue :=
    if out_canDrawThisFrame (sync_info surface canDraw prepared)
    then d else 0 in
  let actual :=
    actualDuration_of now (mFrameInfo t FrameStartTime)
      (sub64 t0 (mSyncQueued t)) (mLastDequeueBufferDuration t) dequeue in
  EvReportActualWorkDuration cb v
    ∈ run_trace t t0 surface canDraw prepared frameNr d now ↔
  cb = r ∧ v = actual ∧ 100000 < actual < 10000000000.
Proof.
  intros Hu Hr. cbn zeta. rewrite run_trace_events, Hu, Hr. split.
  - intros [?|[He%sync_trace_events|[(?&?&?)|[?|[(?&?&?)|[[? ?]|[[? ?]|
      (u' & r' & [= <-] & [= <-] & He)]]]]]]]; try done.
    apply hint_trace_events in He as [[? _]|[?|[[= -> ->] ?%sane_spec]]];
      done.
  - intros (-> & -> & Hf%sane_spec). do 7 right. exists u, r.
    split_and!; [done..|]. apply hint_trace_events. by right; right.
Qed.

(** The dequeue-buffer duration of a run: what draw answered, or zero. *)
Lemma run_trace_dequeue t t0 surface canDraw prepared frameNr d now :
  let dequeue :=
    if out_canDrawThisFrame (sync_info surface canDraw prepared)
    then d else 0 in
  let tr := run_trace t t0 surface canDraw prepared frameNr d now in
  (out_canDrawThisFrame (sync_info surface canDraw prepared) = true ∧
   EvDraw dequeue ∈ tr ∧ (EvWaitOnFences ∉ tr) ∧
   ∀ d', EvDraw d' ∈ tr → d' = dequeue) ∨
  (out_canDrawThisFrame (sync_info surface canDraw prepared) = false ∧
   EvWaitOnFences ∈ tr ∧ dequeue = 0 ∧ ∀ d', EvDraw d' ∉ tr).
Proof.
  cbn zeta.
  assert (∀ e, is_draw_or_wait e = true →
            e ∈ run_trace t t0 surface canDraw prepared frameNr d now →
            (out_canDrawThisFrame (sync_info surface canDraw prepared) = true
             ∧ e = EvDraw d) ∨
            (out_canDrawThisFrame (sync_info surface canDraw prepared) = false
             ∧ e = EvWaitOnFences)) as Hin.
  { intros e He. rewrite run_trace_events.
    intros [->|[Hs%sync_trace_events|[(?&?&->)|[->|[(?&?&->)|[?|[?|
      (u & r & _ & _ & Hh)]]]]]]]; try done; [by destruct e|by left|by right|].
    apply hint_trace_events in Hh as [[-> _]|[->|[-> _]]]; done. }
  destruct (out_canDrawThisFrame (sync_info surface canDraw prepared))
    eqn:Hc; [left|right]; (split; [done|]).
  - split_and!.
    + apply run_trace_events. rewrite Hc. do 5 right. by left.
    + intros H. by destruct (Hin EvWaitOnFences eq_refl H) as [[_ ?]|[? _]].
    + intros d' H.
      destruct (Hin (EvDraw d') eq_refl H) as [[_ ?]|[? _]]; congruence.
  - split_and!; [|done|].
    + apply run_trace_events. rewrite Hc. do 6 right. by left.
    + intros d' H. by destruct (Hin (EvDraw d') eq_refl H) as [[? _]|[_ ?]].
Qed.

(** Neither the Sync Result nor the task a run leaves looks at
    prepareTextures. *)
Lemma sync_result_set_prepareTextures r0 surface canDraw prepared b :
  sync_result r0 surface canDraw (set_prepareTextures b prepared) =
  sync_result r0 surface canDraw prepared.
Proof. by destruct prepared, surface, canDraw. Qed.

Lemma after_run_set_prepareTextures t surface canDraw prepared d b :
  after_run t surface canDraw (set_prepareTextures b prepared) d =
  after_run t surface canDraw prepared d.
Proof.
  unfold after_run. rewrite sync_result_set_prepareTextures.
  by destruct prepared, surface, canDraw.
Qed.

(** *** The layer-update queue *)

Lemma find_layer_None layer (layers : list Ptr) :
  find_layer layer layers = None ↔ layer ∉ layers.
Proof.
  induction layers as [|x rest IH]; cbn [find_layer].
  - split; [intros _; apply not_elem_of_nil|done].
  - rewrite not_elem_of_cons. destruct (decide (x = layer)) as [->|Hne].
    + split; [done|]. by intros [? _].
    + destruct (find_layer layer rest); cbn; split; try done.
      * intros [_ H]. by apply IH in H.
      * intros _. split; [done|]. by apply IH.
Qed.

(** The index found is that of the first match, and erasing there removes
    that entry alone. *)
Lemma find_layer_Some layer (layers : list Ptr) i :
  find_layer layer layers = Some i →
  ∃ l1 l2, layers = l1 ++ layer :: l2 ∧ (layer ∉ l1) ∧
           delete i layers = l1 ++ l2.
Proof.
  revert i. induction layers as [|x rest IH]; intros i; cbn [find_layer];
    [done|].
  destruct (decide (x = layer)) as [->|Hne].
  - intros [= <-]. exists [], rest. split_and!; [done| |done].
    apply not_elem_of_nil.
  - destruct (find_layer layer rest) as [j|]; [|done].
    intros [= <-]. destruct (IH j eq_refl) as (l1 & l2 & -> & Hl1 & Hdel).
    exists (x :: l1), l2. split_and!; [done| |].
    + rewrite not_elem_of_cons. by split.
    + change (x :: delete j (l1 ++ layer :: l2) = x :: (l1 ++ l2)).
      by rewrite Hdel.
Qed.

Lemma pushLayerUpdate_Done (w : World E) c layer :
  mContext (task w) = Some c →
  pushLayerUpdate layer w =
    Done tt
      (if decide (layer ∈ mLayers (task w)) then w
       else mkWorld (with_mLayers (mLayers (task w) ++ [layer]) (task w))
              (env w) (waiter w))
      [].
Proof.
  intros Hc. unfold pushLayerUpdate, mbind, M_bind, bind.
  cbn [gets]. rewrite Hc. cbn [is_null LOG_ALWAYS_FATAL_IF].
  destruct (find_layer layer (mLayers (task w))) eqn:Hf.
  - apply find_layer_Some in Hf as (l1 & l2 & Hl & _ & _).
    rewrite decide_True; [done|]. rewrite Hl. set_solver.
  - apply find_layer_None in Hf. by rewrite decide_False.
Qed.

Lemma outcome_world_bind {A B} (m : M E A) (k : A → M E B) (w : World E) :
  outcome_world ((m ≫= k) w) =
    match m w with
    | Done a w1 _ => outcome_world (k a w1)
    | Failed _ w1 _ => w1
    end.
Proof.
  unfold mbind, M_bind, bind. destruct (m w) as [a w1 tr1|]; [|done].
  by destruct (k a w1).
Qed.

Lemma removeLayerUpdate_Done (w : World E) layer :
  removeLayerUpdate layer w =
    Done tt
      match find_layer layer (mLayers (task w)) with
      | Some i =>
          mkWorld (with_mLayers (delete i (mLayers (task w))) (task w))
            (env w) (waiter w)
      | None => w
      end
      [].
Proof.
  unfold removeLayerUpdate, mbind, M_bind, bind. cbn [gets].
  by destruct (find_layer layer (mLayers (task w))).
Qed.

(** One call on the queue, aborted or not, leaves it free of duplicates. *)
Lemma layer_op_NoDup (w : World E) o :
  NoDup (mLayers (task w)) →
  NoDup (mLayers (task (outcome_world (layer_op o w)))).
Proof.
  intros Hnd. destruct o as [layer|layer]; cbn [layer_op].
  - destruct (mContext (task w)) as [c|] eqn:Hc.
    + rewrite (pushLayerUpdate_Done w c) by done. cbn [outcome_world].
      destruct (decide (layer ∈ mLayers (task w))); [done|].
      cbn. apply NoDup_app. split_and!; [done| |apply NoDup_singleton].
      by intros x Hx ->%list_elem_of_singleton.
    + unfold pushLayerUpdate, mbind, M_bind, bind. cbn [gets].
      by rewrite Hc.
  - rewrite removeLayerUpdate_Done. cbn [outcome_world].
    destruct (find_layer layer (mLayers (task w))) as [i|] eqn:Hf; [|done].
    apply find_layer_Some in Hf as (l1 & l2 & Hl & _ & Hdel).
    cbn. rewrite Hdel.
    rewrite Hl in Hnd. apply NoDup_app in Hnd as (? & Hdis & Hnd2).
    apply NoDup_cons in Hnd2 as [_ ?].
    apply NoDup_app. split_and!; [done| |done].
    intros x Hx Hx2. apply (Hdis x Hx). by right.
Qed.

End Shape.

(** ** The claims *)

Section Claims.
Context {E : Type} `{!Collaborators E}.
Implicit Types (w : World E) (tr : list Event).

(** C1. Every drawFrame on a wired task returns, and the render thread
    signals the producer exactly once while it runs: after the
    synchronisation pass and before the draw or fence wait exactly when
    syncFrameState returned true, and after the draw or fence wait
    otherwise. *)
Theorem drawFrame_unblocks_exactly_once w :
  is_Some (mRenderThread (task w)) →
  is_Some (mContext (task w)) →
  ∃ r w' tr canUnblockUiThread info w1 trs head mid after,
    drawFrame w = Done r w' tr ∧
    syncFrameState TreeInfo_MODE_FULL (before_sync (posted w)) =
      Done (canUnblockUiThread, info) w1 trs ∧
    count is_signal tr = 1%nat ∧
    tr = (head ++ trs ++ mid) ++ EvSignal :: after ∧
    count is_draw_or_wait (head ++ trs ++ mid) =
      (if canUnblockUiThread then 0 else 1)%nat ∧
    count is_draw_or_wait after =
      (if canUnblockUiThread then 1 else 0)%nat.
Proof.
  intros [thread Ht] [c Hc].
  destruct (drawFrame_run w thread c Ht Hc) as (w' & tr & Hrun & _ & Hdraw).
  destruct (run_Done (posted w) thread c)
    as (s & cd & p & e1 & n & d & now & e' & Hsync & Hrun');
    [by destruct w as [[] ? ?]..|].
  assert (tr = run_trace (task (posted w)) (systemTime (env (posted w))).1
                s cd p n d now) as -> by congruence.
  clear Hrun Hrun'.
  destruct (run_trace_split (task (posted w))
              (systemTime (env (posted w))).1 s cd p n d now)
    as (mid & after & Hsplit & Hmid & Hafter).
  eexists _, _, _, _, _, _, _,
    [EvSystemTime (systemTime (env w)).1; EvPost;
     EvSystemTime (systemTime (env (posted w))).1], mid, after.
  split; [exact Hdraw|]. split; [exact Hsync|]. split_and!.
  - count_simpl. by rewrite run_trace_signals.
  - rewrite Hsplit. cbn [app]. by rewrite <- !app_assoc.
  - revert Hmid. count_simpl. done.
  - exact Hafter.
Qed.

Lemma wp_call_exact_ (f : E → E) ev Q w :
  Q tt (mkWorld (task w) (f (env w)) (waiter w)) [ev] → wp (call_ f ev) Q w.
Proof. done. Qed.

(** The pass with the answers of makeCurrent and hasSurface kept: the
    first is asked in the state that vsyncReceived leaves, the second in
    the state that prepareTree leaves, which is the one the pass ends in. *)
Lemma syncFrameState_answers info0 w thread c :
  mRenderThread (task w) = Some thread →
  mContext (task w) = Some c →
  wp (syncFrameState info0)
    (λ r w' tr, ∃ prepared,
       let surface := hasSurface c (env w') in
       let canDraw :=
         (makeCurrent c
            (vsyncReceived (mFrameInfo (task w) Vsync)
               (mFrameInfo (task w) IntendedVsync)
               (mFrameInfo (task w) FrameTimelineVsyncId)
               (mFrameInfo (task w) FrameDeadline)
               (mFrameInfo (task w) FrameInterval) (env w))).1 in
       tr = sync_trace (task w) surface canDraw prepared ∧
       r = (prepareTextures (sync_info surface canDraw prepared),
            sync_info surface canDraw prepared) ∧
       task w' =
         with_mSyncResult
           (sync_result (mSyncResult (task w)) surface canDraw prepared)
           (with_mLayers [] (task w))) w.
Proof.
  destruct w as [t e ws]. destruct t. simpl. intros -> ->.
  unfold syncFrameState.
  repeat (lazymatch goal with
          | |- wp (call (makeCurrent _) _) _ _ => apply wp_call_exact
          | |- wp (call_ (vsyncReceived _ _ _ _ _) _) _ _ =>
              apply wp_call_exact_
          | _ => wp_prim
          end; wp_simpl).
  match goal with i : TreeInfo |- _ => destruct i as [pt ha rr cd] end.
  wp_run.
  all: lazymatch goal with
       | |- context [EvPrepareTree _ _ ?i] => exists i
       end; split_and!; reflexivity.
Qed.

(** C2. A synchronisation pass of a task with a render thread and the
    context [c] asks makeCurrent() and then hasSurface(), and no event of
    the pass carries another answer than theirs.  When hasSurface() answers
    false the Sync Result has LostSurfaceRewardIfFound afterwards and its
    ContextIsStopped bit is the one it had before; when hasSurface()
    answers true and makeCurrent() answered false it has ContextIsStopped
    and its LostSurfaceRewardIfFound bit is the one it had before; either
    way the frame is marked not drawable; when both answer true neither of
    the two bits changes; and a frame that is not drawable leaves
    FrameDropped set.  In drawFrame, which resets the Sync Result first,
    the same holds of the pass it runs, and the bit that is not gained is
    clear in the returned value. *)
Theorem syncFrameState_surface_flags info0 w c :
  is_Some (mRenderThread (task w)) →
  mContext (task w) = Some c →
  (∃ ret info w' tr,
     syncFrameState info0 w = Done (ret, info) w' tr ∧
     let r0 := mSyncResult (task w) in
     let r := mSyncResult (task w') in
     let surface := hasSurface c (env w') in
     let canDraw :=
       (makeCurrent c
          (vsyncReceived (mFrameInfo (task w) Vsync)
             (mFrameInfo (task w) IntendedVsync)
             (mFrameInfo (task w) FrameTimelineVsyncId)
             (mFrameInfo (task w) FrameDeadline)
             (mFrameInfo (task w) FrameInterval) (env w))).1 in
     EvMakeCurrent canDraw ∈ tr ∧
     EvHasSurface surface ∈ tr ∧
     (∀ b, EvMakeCurrent b ∈ tr → b = canDraw) ∧
     (∀ b, EvHasSurface b ∈ tr → b = surface) ∧
     (surface = false →
        has_flag r SyncResult.LostSurfaceRewardIfFound = true ∧
        has_flag r SyncResult.ContextIsStopped =
          has_flag r0 SyncResult.ContextIsStopped ∧
        out_canDrawThisFrame info = false) ∧
     (surface = true → canDraw = false →
        has_flag r SyncResult.ContextIsStopped = true ∧
        has_flag r SyncResult.LostSurfaceRewardIfFound =
          has_flag r0 SyncResult.LostSurfaceRewardIfFound ∧
        out_canDrawThisFrame info = false) ∧
     (surface = true → canDraw = true →
        has_flag r SyncResult.LostSurfaceRewardIfFound =
          has_flag r0 SyncResult.LostSurfaceRewardIfFound ∧
        has_flag r SyncResult.ContextIsStopped =
          has_flag r0 SyncResult.ContextIsStopped) ∧
     (out_canDrawThisFrame info = false →
        has_flag r SyncResult.FrameDropped = true)) ∧
  (∃ r w' tr ret info w1 trs,
     drawFrame w = Done r w' tr ∧
     syncFrameState TreeInfo_MODE_FULL (before_sync (posted w)) =
       Done (ret, info) w1 trs ∧
     let surface := hasSurface c (env w1) in
     let canDraw :=
       (makeCurrent c
          (vsyncReceived (mFrameInfo (task w) Vsync)
             (mFrameInfo (task w) IntendedVsync)
             (mFrameInfo (task w) FrameTimelineVsyncId)
             (mFrameInfo (task w) FrameDeadline)
             (mFrameInfo (task w) FrameInterval)
             (env (before_sync (posted w))))).1 in
     EvMakeCurrent canDraw ∈ tr ∧
     EvHasSurface surface ∈ tr ∧
     (∀ b, EvMakeCurrent b ∈ tr → b = canDraw) ∧
     (∀ b, EvHasSurface b ∈ tr → b = surface) ∧
     (surface = false →
        has_flag r SyncResult.LostSurfaceRewardIfFound = true ∧
        has_flag r SyncResult.ContextIsStopped = false ∧
        has_flag r SyncResult.FrameDropped = true) ∧
     (surface = true → canDraw = false →
        has_flag r SyncResult.ContextIsStopped = true ∧
        has_flag r SyncResult.LostSurfaceRewardIfFound = false ∧
        has_flag r SyncResult.FrameDropped = true) ∧
     (surface = true → canDraw = true →
        has_flag r SyncResult.LostSurfaceRewardIfFound = false ∧
        has_flag r SyncResult.ContextIsStopped = false)).
Proof.
  intros [thread Ht] Hc. split.
  - destruct (proj1 (wp_Done _ _ _)
                (syncFrameState_answers info0 w thread c Ht Hc))
      as ([ret info] & w1 & trs & Hs & p & Htr & [= -> ->] & Htask).
    cbn zeta in *.
    eexists _, _, _, _. split; [exact Hs|].
    rewrite Htask. cbn [mSyncResult with_mSyncResult].
    set (s := hasSurface c (env w1)) in *.
    set (cd := (makeCurrent c _).1) in *.
    destruct (sync_result_flags (mSyncResult (task w)) s cd p)
      as (HL & HS & _ & HD).
    rewrite HL, HS, HD, Htr.
    rewrite sync_trace_makeCurrent, sync_trace_hasSurface.
    clearbody s cd. split_and!; try done.
    + intros b. by rewrite sync_trace_makeCurrent.
    + intros b. by rewrite sync_trace_hasSurface.
    + intros ->. cbn. by rewrite !orb_true_r, orb_false_r.
    + intros -> ->. cbn. by rewrite !orb_true_r, orb_false_r.
    + intros -> ->. cbn. by rewrite !orb_false_r.
    + intros ->. by rewrite orb_true_r.
  - destruct (drawFrame_Done w thread c Ht Hc)
      as (s0 & cd0 & p0 & e1 & n & d & now & e' & Hsync & _ & Hd).
    assert (mRenderThread (task (before_sync (posted w))) = Some thread)
      as Ht' by (by destruct w as [[] ? ?]).
    assert (mContext (task (before_sync (posted w))) = Some c)
      as Hc' by (by destruct w as [[] ? ?]).
    destruct (proj1 (wp_Done _ _ _)
                (syncFrameState_answers TreeInfo_MODE_FULL
                   (before_sync (posted w)) thread c Ht' Hc'))
      as ([ret info] & w1 & trs & Hs & p & Htr & _ & _).
    cbn zeta in Htr.
    change (mFrameInfo (task (before_sync (posted w))))
      with (mFrameInfo (task w)) in Htr.
    exists (sync_result SyncResult.OK s0 cd0 p0).
    eexists _, _. exists ret, info, w1, trs.
    split; [exact Hd|]. split; [exact Hs|]. cbn zeta.
    set (s := hasSurface c (env w1)) in *.
    set (cd := (makeCurrent c _).1) in *.
    assert (s0 = s ∧ cd0 = cd) as [-> ->].
    { rewrite Hs in Hsync. injection Hsync as _ _ _ Heq. rewrite Htr in Heq.
      split.
      - eapply sync_trace_hasSurface. rewrite Heq.
        by apply sync_trace_hasSurface.
      - eapply sync_trace_makeCurrent. rewrite Heq.
        by apply sync_trace_makeCurrent. }
    clearbody s cd.
    destruct (sync_result_flags SyncResult.OK s cd p0) as (HL & HS & _ & HD).
    rewrite HL, HS, HD, !has_flag_OK. cbn [orb].
    assert (∀ ev, is_sync_event ev = true →
              (ev ∈ EvSystemTime (systemTime (env w)).1 :: EvPost ::
                    run_trace (task (posted w))
                      (systemTime (env (posted w))).1 s cd p0 n d now ↔
               ev ∈ sync_trace (task (posted w)) s cd p0)) as Hev.
    { intros ev Hsy. rewrite !elem_of_cons, run_trace_sync by done.
      destruct ev; naive_solver. }
    split_and!.
    + apply Hev; [done|]. by apply sync_trace_makeCurrent.
    + apply Hev; [done|]. by apply sync_trace_hasSurface.
    + intros b Hb. apply Hev in Hb; [|done].
      by apply sync_trace_makeCurrent in Hb.
    + intros b Hb. apply Hev in Hb; [|done].
      by apply sync_trace_hasSurface in Hb.
    + intros ->. by destruct cd.
    + by intros -> ->.
    + by intros -> ->.
Qed.

(** C3. With both hint callbacks installed, a run forwards the target work
    duration (frameDeadline - intendedVsync) * targetCpuTimePercentage / 100
    to the updateTarget callback if and only if it is strictly above
    100000 ns, strictly below 10000000000 ns and differs from
    mLastTargetWorkDuration; mLastTargetWorkDuration becomes the target when
    the callback fires and stays as it was otherwise. *)
Theorem run_forwards_target w u r :
  is_Some (mRenderThread (task w)) →
  is_Some (mContext (task w)) →
  mUpdateTargetWorkDuration (task w) = Some u →
  mReportActualWorkDuration (task w) = Some r →
  ∃ w' tr,
    run w = Done tt w' tr ∧
    let frameDeadline := mFrameInfo (task w) FrameDeadline in
    let intendedVsync := mFrameInfo (task w) IntendedVsync in
    let target := targetWorkDuration_of frameDeadline intendedVsync in
    let fires :=
      100000 < target < 10000000000 ∧
      target ≠ mLastTargetWorkDuration (task w) in
    (in_int64 (frameDeadline - intendedVsync) →
     in_int64 ((frameDeadline - intendedVsync) * targetCpuTimePercentage) →
     target =
       ((frameDeadline - intendedVsync) * targetCpuTimePercentage) ÷ 100) ∧
    (∀ cb v, EvUpdateTargetWorkDuration cb v ∈ tr ↔
             cb = u ∧ v = target ∧ fires) ∧
    (fires → mLastTargetWorkDuration (task w') = target) ∧
    (¬ fires →
     mLastTargetWorkDuration (task w') = mLastTargetWorkDuration (task w)).
Proof.
  intros [thread Ht] [c Hc] Hu Hr.
  destruct (run_Done w thread c Ht Hc)
    as (s & cd & p & e1 & n & d & now & e' & _ & Hrun).
  eexists _, _. split; [exact Hrun|]. cbn zeta.
  split; [apply targetWorkDuration_of_exact|].
  pose proof (target_fires_spec
                (targetWorkDuration_of (mFrameInfo (task w) FrameDeadline)
                   (mFrameInfo (task w) IntendedVsync))
                (mLastTargetWorkDuration (task w))) as Hspec.
  cbn [task mLastTargetWorkDuration after_run]. rewrite Hu, Hr.
  split_and!.
  - intros cb v. rewrite run_trace_events, Hu, Hr. split.
    + intros [?|[He%sync_trace_events|[(?&?&?)|[?|[(?&?&?)|[[? ?]|[[? ?]|
        (u' & r' & [= <-] & [= <-] & He)]]]]]]]; try done.
      apply hint_trace_events in He as [[[= -> ->] ?%Hspec]|[?|[? _]]];
        done.
    + intros (-> & -> & Hf%Hspec). do 7 right. exists u, r.
      split_and!; [done..|]. apply hint_trace_events. by left.
  - by intros ->%Hspec.
  - intros Hn. destruct (target_fires _ _); [|done].
    exfalso. by apply Hn, Hspec.
Qed.

(** C4. With both hint callbacks installed, a run reads the clock twice, at
    its start ([t0]) and after the draw or fence wait ([now]); with
    [dequeue] what draw answered, or zero when the frame was skipped, the
    actual work duration (now - frameStartTime) - min(t0 - mSyncQueued,
    mLastDequeueBufferDuration) - dequeue is forwarded to the reportActual
    callback if and only if it is strictly between 100000 ns and
    10000000000 ns. *)
Theorem run_reports_actual w u r :
  is_Some (mRenderThread (task w)) →
  is_Some (mContext (task w)) →
  mUpdateTargetWorkDuration (task w) = Some u →
  mReportActualWorkDuration (task w) = Some r →
  ∃ w' tr t0 now dequeue,
    run w = Done tt w' tr ∧
    List.filter is_clock tr = [EvSystemTime t0; EvSystemTime now] ∧
    count is_draw_or_wait tr = 1%nat ∧
    (EvDraw dequeue ∈ tr ∨ (EvWaitOnFences ∈ tr ∧ dequeue = 0)) ∧
    let frameStartTime := mFrameInfo (task w) FrameStartTime in
    let queuingDelay := sub64 t0 (mSyncQueued (task w)) in
    let previous := mLastDequeueBufferDuration (task w) in
    let actual :=
      actualDuration_of now frameStartTime queuingDelay previous dequeue in
    (in_int64 (now - frameStartTime) →
     in_int64 (now - frameStartTime - Z.min queuingDelay previous) →
     in_int64 (now - frameStartTime - Z.min queuingDelay previous
               - dequeue) →
     actual =
       (now - frameStartTime) - Z.min queuingDelay previous - dequeue) ∧
    (∀ cb v, EvReportActualWorkDuration cb v ∈ tr ↔
             cb = r ∧ v = actual ∧ 100000 < actual < 10000000000).
Proof.
  intros [thread Ht] [c Hc] Hu Hr.
  destruct (run_Done w thread c Ht Hc)
    as (s & cd & p & e1 & n & d & now & e' & _ & Hrun).
  eexists _, _, (systemTime (env w)).1, now,
    (if out_canDrawThisFrame (sync_info s cd p) then d else 0).
  split; [exact Hrun|].
  split; [by eapply run_trace_clock|].
  split; [apply run_trace_draws|].
  split.
  { destruct (run_trace_dequeue (task w) (systemTime (env w)).1 s cd p n d
                now) as [(_ & ? & _)|(_ & ? & ? & _)]; [by left|by right]. }
  cbn zeta. split; [apply actualDuration_of_exact|].
  intros cb v. by apply (run_trace_reports _ _ _ _ _ _ _ _ u r).
Qed.

(** C10. Every run of a wired task draws or waits on the fences exactly
    once and leaves in mLastDequeueBufferDuration what draw answered, or
    zero when it waited on the fences instead; this holds whether or not
    the hint callbacks are installed, and without both of them the run
    forwards no hint. *)
Theorem run_persists_dequeue_duration w :
  is_Some (mRenderThread (task w)) →
  is_Some (mContext (task w)) →
  ∃ w' tr,
    run w = Done tt w' tr ∧
    count is_draw_or_wait tr = 1%nat ∧
    (∀ d, EvDraw d ∈ tr → mLastDequeueBufferDuration (task w') = d) ∧
    (EvWaitOnFences ∈ tr → mLastDequeueBufferDuration (task w') = 0) ∧
    (mUpdateTargetWorkDuration (task w) = None ∨
     mReportActualWorkDuration (task w) = None →
     ∀ cb v, (EvUpdateTargetWorkDuration cb v ∉ tr) ∧
             (EvReportActualWorkDuration cb v ∉ tr)).
Proof.
  intros [thread Ht] [c Hc].
  destruct (run_Done w thread c Ht Hc)
    as (s & cd & p & e1 & n & d & now & e' & _ & Hrun).
  eexists _, _. split; [exact Hrun|].
  split; [apply run_trace_draws|].
  cbn [task mLastDequeueBufferDuration after_run].
  destruct (run_trace_dequeue (task w) (systemTime (env w)).1 s cd p n d now)
    as [(-> & _ & Hw & Hd)|(-> & _ & _ & Hd)]; split_and!.
  - intros d' Hd'. symmetry. by apply Hd.
  - done.
  - intros Hnone cb v. rewrite !run_trace_events.
    split; intros [?|[He%sync_trace_events|[(?&?&?)|[?|[(?&?&?)|[[? ?]|[[? ?]|
      (u' & r' & ? & ? & He)]]]]]]]; try done; destruct Hnone; congruence.
  - intros d' Hd'. by apply Hd in Hd'.
  - done.
  - intros Hnone cb v. rewrite !run_trace_events.
    split; intros [?|[He%sync_trace_events|[(?&?&?)|[?|[(?&?&?)|[[? ?]|[[? ?]|
      (u' & r' & ? & ? & He)]]]]]]]; try done; destruct Hnone; congruence.
Qed.



(** C6. The layer-update queue never holds a handle twice: whatever
    sequence of pushLayerUpdate and removeLayerUpdate calls is made on a
    queue free of duplicates (as the empty queue of a new task is), the
    queue they leave is free of duplicates.  Removing a handle erases its
    first entry and no other, after which the handle is not queued.  On a
    task with a context every such sequence returns, pushing a handle that
    is queued changes nothing, and pushing one handle twice on an empty
    queue and removing it once leaves the queue empty. *)
Theorem layer_queue_has_no_duplicates w :
  NoDup (mLayers (task w)) →
  (∀ ops, NoDup (mLayers (task (outcome_world (layer_ops ops w))))) ∧
  (∀ layer, ∃ w',
     removeLayerUpdate layer w = Done tt w' [] ∧
     (layer ∉ mLayers (task w')) ∧
     (((layer ∉ mLayers (task w)) ∧ w' = w) ∨
      (∃ l1 l2, mLayers (task w) = l1 ++ layer :: l2 ∧ (layer ∉ l1) ∧
                mLayers (task w') = l1 ++ l2))) ∧
  (is_Some (mContext (task w)) →
   (∀ ops, ∃ w', layer_ops ops w = Done tt w' [] ∧
                 NoDup (mLayers (task w'))) ∧
   (∀ layer, layer ∈ mLayers (task w) →
             pushLayerUpdate layer w = Done tt w []) ∧
   (mLayers (task w) = [] →
    ∀ layer, ∃ w',
      (pushLayerUpdate layer;; pushLayerUpdate layer;;
       removeLayerUpdate layer) w = Done tt w' [] ∧
      mLayers (task w') = [])).
Proof.
  intros Hnd. split_and!.
  - intros ops. revert w Hnd.
    induction ops as [|o ops IH]; intros w Hnd; [done|].
    cbn [layer_ops]. rewrite outcome_world_bind.
    pose proof (layer_op_NoDup w o Hnd) as Hop.
    destruct (layer_op o w) as [[] w1 tr1|f w1 tr1]; [|done].
    by apply IH.
  - intros layer. rewrite removeLayerUpdate_Done. eexists. split; [done|].
    destruct (find_layer layer (mLayers (task w))) as [i|] eqn:Hf.
    + apply find_layer_Some in Hf as (l1 & l2 & Hl & Hl1 & Hdel).
      cbn. rewrite Hdel. split.
      * rewrite Hl in Hnd. apply NoDup_app in Hnd as (_ & Hdis & Hnd2).
        apply NoDup_cons in Hnd2 as [Hl2 _].
        rewrite not_elem_of_app. by split.
      * right. by exists l1, l2.
    + apply find_layer_None in Hf. split; [done|]. by left.
  - intros [c Hc]. split_and!.
    + intros ops. revert w Hc Hnd.
      induction ops as [|o ops IH]; intros w Hc Hnd; [by exists w|].
      cbn [layer_ops]. unfold mbind, M_bind, bind.
      pose proof (layer_op_NoDup w o Hnd) as Hop.
      assert (∃ w1, layer_op o w = Done tt w1 [] ∧
                    mContext (task w1) = Some c) as (w1 & Hw1 & Hc1).
      { destruct o as [layer|layer]; cbn [layer_op].
        - rewrite (pushLayerUpdate_Done w c) by done. eexists.
          split; [done|]. by destruct (decide _).
        - rewrite removeLayerUpdate_Done. eexists. split; [done|].
          by destruct (find_layer _ _). }
      rewrite Hw1 in Hop |- *. cbn [outcome_world] in Hop.
      destruct (IH w1 Hc1 Hop) as (w' & -> & Hnd'). by exists w'.
    + intros layer Hin. rewrite (pushLayerUpdate_Done w c) by done.
      by rewrite decide_True.
    + intros Hempty layer. unfold mbind, M_bind, bind.
      rewrite (pushLayerUpdate_Done w c) by done.
      rewrite Hempty. rewrite decide_False by apply not_elem_of_nil.
      erewrite pushLayerUpdate_Done by done.
      cbn [task mLayers with_mLayers app].
      rewrite decide_True by apply list_elem_of_singleton, eq_refl.
      rewrite removeLayerUpdate_Done.
      cbn [task mLayers with_mLayers find_layer].
      rewrite decide_True by done. by eexists.
Qed.

(** The search stops at the first entry equal to the handle. *)
Lemma find_layer_first layer (l1 l2 : list Ptr) :
  layer ∉ l1 → find_layer layer (l1 ++ layer :: l2) = Some (length l1).
Proof.
  induction l1 as [|x l1 IH]; intros Hl1; cbn [app find_layer length].
  - by rewrite decide_True.
  - apply not_elem_of_cons in Hl1 as [Hne Hl1].
    rewrite decide_False by done. by rewrite IH.
Qed.

(** C8, as the code has it. With no context installed pushLayerUpdate and
    drawFrame stop in LOG_ALWAYS_FATAL before they touch the task, the
    collaborators or the queue.  removeLayerUpdate has no such check: with
    or without a context it returns, calls no collaborator, and changes
    nothing but the queue, from which it erases the first entry equal to the
    handle; a queue without the handle stays as it is. *)
Theorem usage_violations w :
  (mContext (task w) = None →
   (∀ layer,
      pushLayerUpdate layer w =
        Failed
          (LogAlwaysFatal
             "Lifecycle violation, there's no context to pushLayerUpdate with!")
          w []) ∧
   drawFrame w =
     Failed (LogAlwaysFatal "Cannot drawFrame with no CanvasContext!") w []) ∧
  (∀ layer,
     ∃ w',
       removeLayerUpdate layer w = Done tt w' [] ∧
       env w' = env w ∧
       waiter w' = waiter w ∧
       task w' = with_mLayers (mLayers (task w')) (task w) ∧
       (layer ∉ mLayers (task w) → w' = w) ∧
       (∀ l1 l2,
          mLayers (task w) = l1 ++ layer :: l2 → layer ∉ l1 →
          mLayers (task w') = l1 ++ l2)).
Proof.
  split.
  - intros Hc. split.
    + intros layer. unfold pushLayerUpdate, mbind, M_bind, bind.
      cbn [gets]. by rewrite Hc.
    + unfold drawFrame, mbind, M_bind, bind. cbn [gets]. by rewrite Hc.
  - intros layer. rewrite removeLayerUpdate_Done. eexists.
    split; [reflexivity|].
    destruct (find_layer layer (mLayers (task w))) as [i|] eqn:Hf.
    + apply find_layer_Some in Hf as (l1 & l2 & Hq & Hl1 & Hdel).
      cbn [task env waiter mLayers with_mLayers].
      split_and!; try done.
      * intros Hnin. exfalso. apply Hnin. rewrite Hq. set_solver.
      * intros k1 k2 Hq' Hk1. rewrite Hdel.
        assert (Some (length l1) = Some (length k1)) as [= Hlen].
        { rewrite <- (find_layer_first layer l1 l2 Hl1),
            <- (find_layer_first layer k1 k2 Hk1). by rewrite <- Hq, Hq'. }
        rewrite Hq in Hq'.
        apply app_inj_1 in Hq' as [-> [= ->]]; done.
    + apply find_layer_None in Hf.
      split_and!; try done.
      * by destruct w as [[] ? ?].
      * intros k1 k2 Hq' _. exfalso. apply Hf. rewrite Hq'. set_solver.
Qed.

(** C7, as the code has it. What syncFrameState returns is the
    prepareTextures that tree preparation left, false when the texture
    cache is out of room.  No Sync Result flag reports it and nothing the
    task keeps records it: the value drawFrame returns and the task it
    leaves are the same whatever prepareTextures is.  It decides how the
    current frame is handled: when it is false the producer is released only
    after the draw or fence wait. *)
Theorem texture_pressure_delays_release w :
  is_Some (mRenderThread (task w)) →
  is_Some (mContext (task w)) →
  ∃ r w' tr ret info w1 trs surface canDraw queued node prepared d,
    drawFrame w = Done r w' tr ∧
    syncFrameState TreeInfo_MODE_FULL (before_sync (posted w)) =
      Done (ret, info) w1 trs ∧
    EvHasSurface surface ∈ tr ∧
    EvMakeCurrent canDraw ∈ tr ∧
    EvPrepareTree queued node prepared ∈ tr ∧
    ret = prepareTextures prepared ∧
    (ret = false →
     ∃ before after,
       tr = before ++ EvSignal :: after ∧
       count is_draw_or_wait before = 1%nat ∧
       count is_draw_or_wait after = 0%nat) ∧
    (∀ b,
       r = sync_result SyncResult.OK surface canDraw
             (set_prepareTextures b prepared) ∧
       task w' = after_run (task (posted w)) surface canDraw
                   (set_prepareTextures b prepared) d).
Proof.
  intros [thread Ht] [c Hc].
  destruct (drawFrame_Done w thread c Ht Hc)
    as (s & cd & p & e1 & n & d & now & e' & Hsync & _ & Hd).
  eexists _, _, _, _, _, _, _, s, cd, _, _, p, d.
  split; [exact Hd|]. split; [exact Hsync|].
  split_and!.
  - do 2 right. apply run_trace_sync; [done|]. by apply sync_trace_hasSurface.
  - do 2 right. apply run_trace_sync; [done|].
    by apply sync_trace_makeCurrent.
  - do 2 right. apply run_trace_sync; [done|].
    by apply sync_trace_prepareTree.
  - by destruct p, s, cd.
  - intros Hret.
    destruct (run_trace_split (task (posted w))
                (systemTime (env (posted w))).1 s cd p n d now)
      as (mid & after & Hsplit & Hmid & Hafter).
    cbn zeta in Hmid, Hafter. rewrite Hret in Hmid, Hafter.
    eexists (EvSystemTime _ :: EvPost :: _), after. split_and!.
    + rewrite Hsplit. reflexivity.
    + revert Hmid. count_simpl. done.
    + exact Hafter.
  - intros b.
    by rewrite sync_result_set_prepareTextures,
      after_run_set_prepareTextures.
Qed.

End Claims.

(** ** The claims on concrete inputs *)

Lemma drawFrame_unblocks_exactly_once_witness :
  ∃ r w' tr,
    drawFrame sample_world = Done r w' tr ∧ count is_signal tr = 1%nat.
Proof.
  destruct (drawFrame_unblocks_exactly_once sample_world)
    as (r & w' & tr & _ & _ & _ & _ & _ & _ & _ & Hd & _ & Hc & _).
  - exists 1%positive; reflexivity.
  - exists 2%positive; reflexivity.
  - exists r, w', tr. exact (conj Hd Hc).
Defined.

Lemma syncFrameState_surface_flags_witness :
  ∃ r w' tr,
    drawFrame surfaceless_world = Done r w' tr ∧
    EvHasSurface false ∈ tr ∧
    has_flag r SyncResult.LostSurfaceRewardIfFound = true ∧
    has_flag r SyncResult.ContextIsStopped = false ∧
    has_flag r SyncResult.FrameDropped = true.
Proof.
  destruct (syncFrameState_surface_flags TreeInfo_MODE_FULL
              surfaceless_world 2%positive)
    as (_ & r & w' & tr & ret & info & w1 & trs & Hd & Hs & _ & Hin & _ & _
        & H & _).
  - exists 1%positive; reflexivity.
  - reflexivity.
  - assert (hasSurface 2%positive (env w1) = false) as Hsurface.
    { apply (f_equal outcome_world) in Hs. cbn [outcome_world] in Hs.
      rewrite <- Hs. vm_compute. reflexivity. }
    rewrite Hsurface in Hin.
    exists r, w', tr. exact (conj Hd (conj Hin (H Hsurface))).
Defined.

Lemma run_forwards_target_witness :
  ∃ w' tr,
    run sample_world = Done tt w' tr ∧
    (∀ cb v,
       EvUpdateTargetWorkDuration cb v ∈ tr ↔
       cb = 10%positive ∧
       v = targetWorkDuration_of 17600000 1000000 ∧
       100000 < targetWorkDuration_of 17600000 1000000 < 10000000000 ∧
       targetWorkDuration_of 17600000 1000000 ≠ 0).
Proof.
  destruct (run_forwards_target sample_world 10%positive 11%positive)
    as (w' & tr & Hr & _ & H & _).
  - exists 1%positive; reflexivity.
  - exists 2%positive; reflexivity.
  - reflexivity.
  - reflexivity.
  - exists w', tr. exact (conj Hr H).
Defined.

Lemma run_reports_actual_witness :
  ∃ w' tr t0 now dequeue,
    run sample_world = Done tt w' tr ∧
    List.filter is_clock tr = [EvSystemTime t0; EvSystemTime now] ∧
    (∀ cb v,
       EvReportActualWorkDuration cb v ∈ tr ↔
       cb = 11%positive ∧
       v = actualDuration_of now 95000000 (sub64 t0 0) 0 dequeue ∧
       100000 < actualDuration_of now 95000000 (sub64 t0 0) 0 dequeue
         < 10000000000).
Proof.
  destruct (run_reports_actual sample_world 10%positive 11%positive)
    as (w' & tr & t0 & now & dq & Hr & Hc & _ & _ & _ & H).
  - exists 1%positive; reflexivity.
  - exists 2%positive; reflexivity.
  - reflexivity.
  - reflexivity.
  - exists w', tr, t0, now, dq. exact (conj Hr (conj Hc H)).
Defined.


Lemma layer_queue_has_no_duplicates_witness :
  NoDup
    (mLayers
       (task
          (outcome_world
             (layer_ops
                [PushLayer 5%positive; PushLayer 6%positive;
                 PushLayer 5%positive; RemoveLayer 5%positive;
                 PushLayer 6%positive] sample_world)))).
Proof.
  destruct (layer_queue_has_no_duplicates sample_world) as [H _].
  - apply NoDup_nil_2.
  - apply H.
Defined.

Lemma texture_pressure_delays_release_witness :
  ∃ r w' tr ret info w1 trs,
    drawFrame pressed_world = Done r w' tr ∧
    syncFrameState TreeInfo_MODE_FULL (before_sync (posted pressed_world)) =
      Done (ret, info) w1 trs ∧
    (ret = false →
     ∃ before after,
       tr = before ++ EvSignal :: after ∧
       count is_draw_or_wait before = 1%nat ∧
       count is_draw_or_wait after = 0%nat).
Proof.
  destruct (texture_pressure_delays_release pressed_world)
    as (r & w' & tr & ret & info & w1 & trs & _ & _ & _ & _ & _ & _ &
        Hd & Hs & _ & _ & _ & _ & H & _).
  - exists 1%positive; reflexivity.
  - exists 2%positive; reflexivity.
  - exists r, w', tr, ret, info, w1, trs. exact (conj Hd (conj Hs H)).
Defined.

Lemma usage_violations_witness :
  drawFrame fresh_world =
    Failed (LogAlwaysFatal "Cannot drawFrame with no CanvasContext!")
      fresh_world [] ∧
  ∃ w',
    removeLayerUpdate 5%positive unwired_world = Done tt w' [] ∧
    mLayers (task w') = [].
Proof.
  destruct (usage_violations fresh_world) as [Hfatal _].
  destruct (Hfatal eq_refl) as [_ Hd].
  destruct (usage_violations unwired_world) as [_ Hremove].
  destruct (Hremove 5%positive) as (w' & Hr & _ & _ & _ & _ & Herase).
  split; [exact Hd|].
  exists w'. split; [exact Hr|].
  apply (Herase [] []); [reflexivity|apply not_elem_of_nil].
Defined.


Lemma run_persists_dequeue_duration_witness :
  ∃ w' tr,
    run sample_world = Done tt w' tr ∧
    (∀ d, EvDraw d ∈ tr → mLastDequeueBufferDuration (task w') = d).
Proof.
  destruct (run_persists_dequeue_duration sample_world)
    as (w' & tr & Hr & _ & H & _).
  - exists 1%positive; reflexivity.
  - exists 2%positive; reflexivity.
  - exists w', tr. exact (conj Hr H).
Defined.

(** C7 as the spec has it fails: with the texture cache out of room
    syncFrameState returns false, yet drawFrame returns OK, a Sync Result
    with no flag at all, and leaves the very task it leaves when there is
    room, so nothing is carried forward; what changes is the frame at hand,
    whose signal moves behind the draw. *)
Lemma texture_pressure_counterexample :
  (∃ info w1 trs,
     syncFrameState TreeInfo_MODE_FULL (before_sync (posted pressed_world)) =
       Done (false, info) w1 trs) ∧
  ∃ w_pressed tr_pressed w_roomy tr_roomy,
    drawFrame pressed_world = Done SyncResult.OK w_pressed tr_pressed ∧
    drawFrame sample_world = Done SyncResult.OK w_roomy tr_roomy ∧
    (∀ flag, has_flag SyncResult.OK flag = false) ∧
    task w_pressed = task w_roomy ∧
    (∃ before after,
       tr_pressed = before ++ EvDraw 200000 :: EvSignal :: after) ∧
    (∃ before after,
       tr_roomy = before ++ EvSignal :: EvDraw 200000 :: after).
Proof.
  split.
  - eexists _, _, _. vm_compute. reflexivity.
  - eexists _, _, _, _.
    split; [vm_compute; reflexivity|].
    split; [vm_compute; reflexivity|].
    split; [intros flag; reflexivity|]. split; [reflexivity|].
    split.
    + eexists [_; _; _; _; _; _; _; _; _], _. reflexivity.
    + eexists [_; _; _; _; _; _; _; _; _], _. reflexivity.
Qed.

(** C8 as the spec has it fails for removeLayerUpdate: on a task that never
    had a context it returns instead of aborting, and on a task whose
    context was taken away it erases the queued entry. *)
Lemma removeLayerUpdate_without_context_counterexample :
  mContext (task fresh_world) = None ∧
  removeLayerUpdate 5%positive fresh_world = Done tt fresh_world [] ∧
  mContext (task unwired_world) = None ∧
  mLayers (task unwired_world) = [5%positive] ∧
  ∃ w',
    removeLayerUpdate 5%positive unwired_world = Done tt w' [] ∧
    mLayers (task w') = [].
Proof.
  split_and!; [reflexivity..|].
  eexists. split; [vm_compute; reflexivity|reflexivity].
Qed.



(** Two frames of 16.6 ms at 70 percent: the first forwards the target of
    11.62 ms, the second, whose target is the same, forwards none, and its
    actual duration has the first frame's 0.2 ms of dequeuing taken off. *)
Example target_forwarded_once :
  ∃ w1 w2,
    drawFrame sample_world =
      Done SyncResult.OK w1
        [EvSystemTime 100000000; EvPost; EvSystemTime 101000000;
         EvVsyncReceived 1000000 1000000 7 17600000 16600000;
         EvMakeCurrent true; EvUnpinImages;
         EvSetContentDrawBounds (mkRect 0 0 0 0);
         EvPrepareTree 100000000 (Some 3%positive)
           (mkTreeInfo true false false true);
         EvHasSurface true; EvSignal; EvDraw 200000;
         EvUpdateTargetWorkDuration 10%positive 11620000;
         EvSystemTime 102000000;
         EvReportActualWorkDuration 11%positive 6800000] ∧
    drawFrame w1 =
      Done SyncResult.OK w2
        [EvSystemTime 103000000; EvPost; EvSystemTime 104000000;
         EvVsyncReceived 1000000 1000000 7 17600000 16600000;
         EvMakeCurrent true; EvUnpinImages;
         EvSetContentDrawBounds (mkRect 0 0 0 0);
         EvPrepareTree 103000000 (Some 3%positive)
           (mkTreeInfo true false false true);
         EvHasSurface true; EvSignal; EvDraw 200000;
         EvSystemTime 105000000;
         EvReportActualWorkDuration 11%positive 9600000].
Proof.
  eexists _, _. split.
  - vm_compute. reflexivity.
  - vm_compute. reflexivity.
Qed.

(** A frame whose work comes to 0.05 ms is not reported. *)
Example short_frame_not_reported :
  actualDuration_of 102000000 101750000 (sub64 101000000 100000000) 0 200000
    = 50000 ∧
  ∃ w',
    drawFrame late_world =
      Done SyncResult.OK w'
        [EvSystemTime 100000000; EvPost; EvSystemTime 101000000;
         EvVsyncReceived 1000000 1000000 7 17600000 16600000;
         EvMakeCurrent true; EvUnpinImages;
         EvSetContentDrawBounds (mkRect 0 0 0 0);
         EvPrepareTree 100000000 (Some 3%positive)
           (mkTreeInfo true false false true);
         EvHasSurface true; EvSignal; EvDraw 200000;
         EvUpdateTargetWorkDuration 10%positive 11620000;
         EvSystemTime 102000000].
Proof.
  split; [vm_compute; reflexivity|].
  eexists. vm_compute. reflexivity.
Qed.

(** With no surface the frame is skipped: the fences are waited on, the
    Sync Result is LostSurfaceRewardIfFound with FrameDropped, and nothing
    is taken off the actual duration for dequeuing. *)
Example surfaceless_frame_skipped :
  ∃ w',
    drawFrame surfaceless_world =
      Done (Z.lor SyncResult.LostSurfaceRewardIfFound SyncResult.FrameDropped)
        w'
        [EvSystemTime 100000000; EvPost; EvSystemTime 101000000;
         EvVsyncReceived 1000000 1000000 7 17600000 16600000;
         EvMakeCurrent true; EvUnpinImages;
         EvSetContentDrawBounds (mkRect 0 0 0 0);
         EvPrepareTree 100000000 (Some 3%positive)
           (mkTreeInfo true false false true);
         EvHasSurface false; EvHasSurface false; EvSignal; EvWaitOnFences;
         EvUpdateTargetWorkDuration 10%positive 11620000;
         EvSystemTime 102000000;
         EvReportActualWorkDuration 11%positive 7000000] ∧
    mLastDequeueBufferDuration (task w') = 0.
Proof.
  eexists. split.
  - vm_compute. reflexivity.
  - reflexivity.
Qed.

(** ** Further properties of the member functions *)

Section More.
Context {E : Type} `{!Collaborators E}.
Implicit Types (w : World E) (tr : list Event).

Lemma count_apply_none p (layers : list Ptr) :
  (∀ l, p (EvApply l) = false) → count p (EvApply <$> layers) = 0%nat.
Proof.
  intros Hp. apply count_none. by intros e (l & -> & _)%list_elem_of_fmap.
Qed.

Lemma count_is_apply (layers : list Ptr) :
  count is_apply (EvApply <$> layers) = length layers.
Proof.
  induction layers as [|l rest IH]; [done|].
  cbn [fmap list_fmap]. rewrite count_cons. cbn. by rewrite IH.
Qed.

(** A pass ORs into the Sync Result what it would leave in an empty one. *)
Lemma sync_result_lor r0 surface canDraw prepared :
  sync_result r0 surface canDraw prepared =
    Z.lor r0 (sync_result SyncResult.OK surface canDraw prepared) ∧
  0 <= sync_result SyncResult.OK surface canDraw prepared < 16.
Proof.
  destruct prepared as [pt ha rr cdf], surface, canDraw, ha, rr, cdf;
    (split; [|by vm_compute]);
    unfold sync_result; cbn;
    rewrite <- ?Z.lor_assoc, ?Z.lor_0_r; reflexivity.
Qed.

(** The Sync Result of a drawFrame is OK exactly for a drawable frame that
    asks for no redraw. *)
Lemma sync_result_OK surface canDraw prepared :
  sync_result SyncResult.OK surface canDraw prepared = SyncResult.OK ↔
  out_canDrawThisFrame (sync_info surface canDraw prepared) = true ∧
  out_hasAnimations prepared && out_requiresUiRedraw prepared = false.
Proof.
  destruct prepared as [pt ha rr cdf], surface, canDraw, ha, rr, cdf;
    vm_compute; split; try done; by intros [? ?].
Qed.

(** X1. The synchronisation pass of a wired task makes its calls in one
    fixed order: vsyncReceived with the five timing slots of the frame info,
    makeCurrent, unpinImages, apply on every queued layer in the order of
    the queue, setContentDrawBounds, prepareTree with the enqueue time and
    the target node, and only then hasSurface, once or twice with the same
    answer; it leaves the queue empty. *)
Theorem syncFrameState_call_order info0 w :
  is_Some (mRenderThread (task w)) →
  is_Some (mContext (task w)) →
  ∃ ret info w' tr canDraw prepared surface again,
    syncFrameState info0 w = Done (ret, info) w' tr ∧
    tr =
      [EvVsyncReceived (mFrameInfo (task w) Vsync)
         (mFrameInfo (task w) IntendedVsync)
         (mFrameInfo (task w) FrameTimelineVsyncId)
         (mFrameInfo (task w) FrameDeadline)
         (mFrameInfo (task w) FrameInterval);
       EvMakeCurrent canDraw; EvUnpinImages]
      ++ (EvApply <$> mLayers (task w))
      ++ [EvSetContentDrawBounds (mContentDrawBounds (task w));
          EvPrepareTree (mSyncQueued (task w)) (mTargetNode (task w))
            prepared;
          EvHasSurface surface]
      ++ again ∧
    (again = [] ∨ again = [EvHasSurface surface]) ∧
    mLayers (task w') = [].
Proof.
  intros [thread Ht] [c Hc].
  destruct (proj1 (wp_Done _ _ _)
              (syncFrameState_Done info0 w thread c Ht Hc))
    as (r & w1 & trs & Hs & s & cd & p & e1 & -> & -> & ->).
  eexists _, _, _, _, cd, p, s, _. split; [exact Hs|].
  split; [reflexivity|]. split; [|reflexivity].
  destruct (negb s || negb cd); auto.
Qed.

(** X2. A synchronisation pass touches two members of the task only: it
    empties mLayers and ORs flags into mSyncResult.  It never clears a flag
    that was set, and what it adds lies within the four flags of the
    enum. *)
Theorem syncFrameState_accumulates info0 w :
  is_Some (mRenderThread (task w)) →
  is_Some (mContext (task w)) →
  ∃ ret info w' tr added,
    syncFrameState info0 w = Done (ret, info) w' tr ∧
    0 <= added < 16 ∧
    task w' =
      with_mSyncResult (Z.lor (mSyncResult (task w)) added)
        (with_mLayers [] (task w)) ∧
    waiter w' = waiter w ∧
    (∀ flag, has_flag (mSyncResult (task w)) flag = true →
             has_flag (mSyncResult (task w')) flag = true).
Proof.
  intros [thread Ht] [c Hc].
  destruct (proj1 (wp_Done _ _ _)
              (syncFrameState_Done info0 w thread c Ht Hc))
    as (r & w1 & trs & Hs & s & cd & p & e1 & -> & -> & ->).
  destruct (sync_result_lor (mSyncResult (task w)) s cd p) as [Hlor Hb].
  eexists _, _, _, _, _. split; [exact Hs|]. split; [exact Hb|].
  cbn [task waiter]. rewrite Hlor. split_and!; [done..|].
  intros flag Hf. cbn [mSyncResult with_mSyncResult].
  by rewrite has_flag_lor, Hf.
Qed.

(** X3. The value drawFrame returns can be read back flag by flag: it has
    LostSurfaceRewardIfFound exactly when hasSurface answered false,
    ContextIsStopped exactly when hasSurface answered true and makeCurrent
    false, FrameDropped exactly when the frame was skipped (the fences were
    waited on and draw was not called), and it is OK exactly when the frame
    was drawn and tree preparation did not report animations together with
    a redraw request.  No bit outside the four flags is ever set. *)
Theorem drawFrame_result_decoded w :
  is_Some (mRenderThread (task w)) →
  is_Some (mContext (task w)) →
  ∃ r w' tr,
    drawFrame w = Done r w' tr ∧
    0 <= r < 16 ∧
    (has_flag r SyncResult.LostSurfaceRewardIfFound = true ↔
     EvHasSurface false ∈ tr) ∧
    (has_flag r SyncResult.ContextIsStopped = true ↔
     EvHasSurface true ∈ tr ∧ EvMakeCurrent false ∈ tr) ∧
    (has_flag r SyncResult.FrameDropped = true ↔ EvWaitOnFences ∈ tr) ∧
    (has_flag r SyncResult.FrameDropped = false ↔ ∃ d, EvDraw d ∈ tr) ∧
    (r = SyncResult.OK ↔
     (∃ d, EvDraw d ∈ tr) ∧
     ∀ queued node info,
       EvPrepareTree queued node info ∈ tr →
       out_hasAnimations info && out_requiresUiRedraw info = false).
Proof.
  intros [thread Ht] [c Hc].
  destruct (drawFrame_Done w thread c Ht Hc)
    as (s & cd & p & e1 & n & d & now & e' & _ & _ & Hd).
  eexists _, _, _. split; [exact Hd|].
  destruct (sync_result_flags SyncResult.OK s cd p) as (HL & HS & _ & HD).
  rewrite HL, HS, HD, !has_flag_OK. cbn [orb].
  assert (∀ e, is_sync_event e = true →
            e ∈ EvSystemTime (systemTime (env w)).1 :: EvPost ::
                run_trace (task (posted w)) (systemTime (env (posted w))).1
                  s cd p n d now ↔
            e ∈ sync_trace (task (posted w)) s cd p) as Hsync.
  { intros e He. rewrite !elem_of_cons, run_trace_sync by done.
    split; [|by auto]. by intros [->|[->|?]]. }
  assert (∀ e, is_draw_or_wait e = true →
            e ∈ EvSystemTime (systemTime (env w)).1 :: EvPost ::
                run_trace (task (posted w)) (systemTime (env (posted w))).1
                  s cd p n d now ↔
            e ∈ run_trace (task (posted w)) (systemTime (env (posted w))).1
                  s cd p n d now) as Hdw.
  { intros e He. rewrite !elem_of_cons.
    split; [|by auto]. by intros [->|[->|?]]. }
  rewrite !Hsync, sync_trace_hasSurface, sync_trace_hasSurface,
    sync_trace_makeCurrent, Hdw by done.
  pose proof (run_trace_dequeue (task (posted w))
                (systemTime (env (posted w))).1 s cd p n d now) as Hq.
  cbn zeta in Hq.
  split; [exact (proj2 (sync_result_lor 0 s cd p))|].
  split; [by destruct s|].
  split; [destruct s, cd; naive_solver|].
  split.
  { destruct Hq as [(-> & _ & Hw & _)|(-> & Hw & _)]; by split. }
  split.
  { destruct Hq as [(-> & Hdr & _)|(-> & _ & _ & Hno)].
    - split; [|done]. intros _. eexists. by apply Hdw.
    - split; [done|]. intros [d' Hd']. by apply Hdw, Hno in Hd'. }
  rewrite sync_result_OK. split.
  - intros [Hcd Hui]. split.
    + destruct Hq as [(_ & Hdr & _)|(Hcd' & _)]; [|congruence].
      eexists. by apply Hdw.
    + intros q' n' i' (_ & _ & ->)%Hsync%sync_trace_prepareTree; done.
  - intros [[d' Hd'] Hui]. split.
    + destruct Hq as [(? & _)|(_ & _ & _ & Hno)]; [done|].
      by apply Hdw, Hno in Hd'.
    + eapply Hui, Hsync; [done|]. by apply sync_trace_prepareTree.
Qed.

(** *** Counting along a run *)

Lemma count_option_list {A} p (o : option A) (f : A → Event) :
  count p match o with Some a => [f a] | None => [] end =
    match o with Some a => if p (f a) then 1%nat else 0%nat | None => 0%nat end.
Proof. destruct o as [a|]; [|done]. unfold count. cbn. by destruct (p (f a)). Qed.

(** The events of a run class by class: one clock reading, the pass, the
    two callbacks, the signal, the draw or wait, the hints. *)
Lemma count_run_trace p t t0 surface canDraw prepared frameNr d now :
  let info := sync_info surface canDraw prepared in
  count p (run_trace t t0 surface canDraw prepared frameNr d now) =
    ((if p (EvSystemTime t0) then 1 else 0)
     + (count p (sync_trace t surface canDraw prepared)
        + (match mFrameCompleteCallback t with
           | Some cb => if p (EvAddFrameCompleteListener cb) then 1 else 0
           | None => 0
           end
           + ((if p EvSignal then 1 else 0)
              + (match mFrameCallback t with
                 | Some cb =>
                     if p (EvEnqueueFrameWork cb frameNr) then 1 else 0
                 | None => 0
                 end
                 + ((if p (if out_canDrawThisFrame info
                           then EvDraw d else EvWaitOnFences)
                     then 1 else 0)
                    + count p
                        match mUpdateTargetWorkDuration t,
                              mReportActualWorkDuration t with
                        | Some u, Some r =>
                            hint_trace u r
                              (targetWorkDuration_of
                                 (mFrameInfo t FrameDeadline)
                                 (mFrameInfo t IntendedVsync))
                              (mLastTargetWorkDuration t) now
                              (actualDuration_of now
                                 (mFrameInfo t FrameStartTime)
                                 (sub64 t0 (mSyncQueued t))
                                 (mLastDequeueBufferDuration t)
                                 (if out_canDrawThisFrame info
                                  then d else 0))
                        | _, _ => []
                        end))))))%nat.
Proof.
  cbn zeta. unfold run_trace.
  rewrite !count_app, !count_option_list, !count_cons.
  destruct (prepareTextures _); rewrite ?count_cons;
    change (count p []) with 0%nat; lia.
Qed.

Lemma count_sync_trace_apply p t surface canDraw prepared :
  (∀ l, p (EvApply l) = false) →
  count p (sync_trace t surface canDraw prepared) =
    count p
      ([EvVsyncReceived (mFrameInfo t Vsync) (mFrameInfo t IntendedVsync)
          (mFrameInfo t FrameTimelineVsyncId) (mFrameInfo t FrameDeadline)
          (mFrameInfo t FrameInterval);
        EvMakeCurrent canDraw; EvUnpinImages;
        EvSetContentDrawBounds (mContentDrawBounds t);
        EvPrepareTree (mSyncQueued t) (mTargetNode t) prepared;
        EvHasSurface surface]
       ++ (if negb surface || negb canDraw
           then [EvHasSurface surface] else [])).
Proof.
  intros Hp. unfold sync_trace.
  rewrite !count_app, (count_apply_none _ _ Hp).
  rewrite !count_cons. change (count p []) with 0%nat. lia.
Qed.

Lemma count_hints_body p :
  ∀ l : list Event, (∀ e, e ∈ l → p e = false) → count p l = 0%nat.
Proof. apply count_none. Qed.

Lemma target_fires_refl target : target_fires target target = false.
Proof. unfold target_fires. by rewrite Z.eqb_refl, andb_false_r. Qed.

Lemma count_target_update_hint_trace u r target lastTarget now actual :
  count is_target_update (hint_trace u r target lastTarget now actual) =
    if target_fires target lastTarget then 1%nat else 0%nat.
Proof.
  unfold hint_trace.
  by destruct (target_fires target lastTarget), (sane actual).
Qed.

(** One frame, counted: the facts about a drawFrame that a sequence of
    frames needs. *)
Lemma drawFrame_counts w thread c :
  mRenderThread (task w) = Some thread →
  mContext (task w) = Some c →
  ∃ r w' tr,
    drawFrame w = Done r w' tr ∧
    mRenderThread (task w') = Some thread ∧
    mContext (task w') = Some c ∧
    count is_post tr = 1%nat ∧
    count is_signal tr = 1%nat ∧
    count is_draw_or_wait tr = 1%nat ∧
    count is_prepareTree tr = 1%nat.
Proof.
  intros Ht Hc.
  destruct (drawFrame_Done w thread c Ht Hc)
    as (s & cd & p & e1 & n & d & now & e' & _ & _ & Hd).
  eexists _, _, _. split; [exact Hd|].
  do 2 (split; [by destruct w as [[] ? ?]|]).
  rewrite !count_cons, run_trace_signals, run_trace_draws,
    !count_run_trace.
  rewrite !count_sync_trace_apply by done.
  split_and!; try done.
  all: cbn [is_post is_prepareTree].
  all: repeat case_match; try discriminate;
    rewrite ?count_hint_trace by done; reflexivity.
Qed.

Lemma count_target_update_run_trace t t0 surface canDraw prepared frameNr d
    now :
  count is_target_update
    (run_trace t t0 surface canDraw prepared frameNr d now) =
    match mUpdateTargetWorkDuration t, mReportActualWorkDuration t with
    | Some _, Some _ =>
        if target_fires
             (targetWorkDuration_of (mFrameInfo t FrameDeadline)
                (mFrameInfo t IntendedVsync))
             (mLastTargetWorkDuration t)
        then 1%nat else 0%nat
    | _, _ => 0%nat
    end.
Proof.
  rewrite count_run_trace, count_sync_trace_apply by done.
  cbn [is_target_update].
  destruct (mFrameCompleteCallback t), (mFrameCallback t),
    (negb surface || negb canDraw),
    (out_canDrawThisFrame (sync_info surface canDraw prepared)),
    (mUpdateTargetWorkDuration t), (mReportActualWorkDuration t);
    rewrite ?count_target_update_hint_trace; reflexivity.
Qed.

Lemma count_callbacks_run_trace t t0 surface canDraw prepared frameNr d now :
  count is_listener (run_trace t t0 surface canDraw prepared frameNr d now) =
    match mFrameCompleteCallback t with
    | Some _ => 1%nat | None => 0%nat end ∧
  count is_frame_work
    (run_trace t t0 surface canDraw prepared frameNr d now) =
    match mFrameCallback t with Some _ => 1%nat | None => 0%nat end.
Proof.
  rewrite !count_run_trace, !count_sync_trace_apply by done.
  cbn [is_listener is_frame_work].
  destruct (mFrameCompleteCallback t), (mFrameCallback t),
    (negb surface || negb canDraw),
    (out_canDrawThisFrame (sync_info surface canDraw prepared)),
    (mUpdateTargetWorkDuration t), (mReportActualWorkDuration t);
    rewrite ?count_hint_trace by done; split; reflexivity.
Qed.

(** X4. The two per-frame callbacks are single-shot.  A drawFrame hands a
    frame-complete callback to addFrameCompleteListener exactly once and a
    frame callback to enqueueFrameWork exactly once, whether or not the
    frame is drawn, never hands over one that was not set, and leaves both
    slots empty, so that the next drawFrame hands over neither. *)
Theorem frame_callbacks_are_single_shot w :
  is_Some (mRenderThread (task w)) →
  is_Some (mContext (task w)) →
  ∃ r w' tr r2 w2 tr2,
    drawFrame w = Done r w' tr ∧
    count is_listener tr =
      match mFrameCompleteCallback (task w) with
      | Some _ => 1%nat | None => 0%nat end ∧
    count is_frame_work tr =
      match mFrameCallback (task w) with
      | Some _ => 1%nat | None => 0%nat end ∧
    (∀ cb, EvAddFrameCompleteListener cb ∈ tr ↔
           mFrameCompleteCallback (task w) = Some cb) ∧
    (∀ cb, (∃ frameNr, EvEnqueueFrameWork cb frameNr ∈ tr) ↔
           mFrameCallback (task w) = Some cb) ∧
    mFrameCompleteCallback (task w') = None ∧
    mFrameCallback (task w') = None ∧
    drawFrame w' = Done r2 w2 tr2 ∧
    count is_listener tr2 = 0%nat ∧
    count is_frame_work tr2 = 0%nat.
Proof.
  intros [thread Ht] [c Hc].
  destruct (drawFrame_Done w thread c Ht Hc)
    as (s & cd & p & e1 & n & d & now & e' & _ & _ & Hd).
  match type of Hd with _ = Done _ ?w1 _ => set (w' := w1) in * end.
  destruct (drawFrame_Done w' thread c)
    as (s2 & cd2 & p2 & e2 & n2 & d2 & now2 & e2' & _ & _ & Hd2);
    [by destruct w as [[] ? ?]..|].
  match type of Hd with _ = Done ?r1 _ ?t1 =>
    match type of Hd2 with _ = Done ?r2 ?w2 ?t2 =>
      exists r1, w', t1, r2, w2, t2
    end
  end.
  split; [exact Hd|].
  rewrite !count_cons.
  destruct (count_callbacks_run_trace (task (posted w))
              (systemTime (env (posted w))).1 s cd p n d now) as [-> ->].
  split; [done|]. split; [done|].
  split.
  { intros cb. rewrite !elem_of_cons, run_trace_events.
    change (mFrameCompleteCallback (task (posted w)))
      with (mFrameCompleteCallback (task w)).
    split.
    - intros [?|[?|[?|[He%sync_trace_events|[(cb' & ? & [= ->])|[?|
        [(?&?&?)|[[? ?]|[[? ?]|(u & r0 & _ & _ & He)]]]]]]]]]; try done.
      apply hint_trace_events in He as [[? _]|[?|[? _]]]; done.
    - intros Hcb. do 4 right. left. by exists cb. }
  split.
  { intros cb.
    change (mFrameCallback (task w))
      with (mFrameCallback (task (posted w))).
    split.
    - intros [frameNr Hin]. revert Hin.
      rewrite !elem_of_cons, run_trace_events.
      intros [?|[?|[?|[He%sync_trace_events|[(?&?&?)|[?|
        [(cb' & ? & [= -> _])|[[? ?]|[[? ?]|(u & r0 & _ & _ & He)]]]]]]]]];
        try done.
      apply hint_trace_events in He as [[? _]|[?|[? _]]]; done.
    - intros Hcb. exists n. rewrite !elem_of_cons, run_trace_events.
      do 6 right. left. by exists cb. }
  split; [done|]. split; [done|]. split; [exact Hd2|].
  destruct (count_callbacks_run_trace (task (posted w'))
              (systemTime (env (posted w'))).1 s2 cd2 p2 n2 d2 now2)
    as [-> ->].
  done.
Qed.

(** X5. The steps of a frame come in one order.  The synchronisation pass
    and the registration of the frame-complete listener are over before the
    producer is released; the frame work is enqueued before the draw or
    fence wait; and a hint callback is only called once the producer has
    been released and the draw or fence wait is over. *)
Theorem drawFrame_step_order w :
  is_Some (mRenderThread (task w)) →
  is_Some (mContext (task w)) →
  ∃ r w' tr,
    drawFrame w = Done r w' tr ∧
    (∃ before after,
       tr = before ++ EvSignal :: after ∧
       count is_sync_event after = 0%nat ∧
       count is_listener after = 0%nat) ∧
    (∃ before dw after,
       tr = before ++ dw :: after ∧
       is_draw_or_wait dw = true ∧
       count is_sync_event after = 0%nat ∧
       count is_listener after = 0%nat ∧
       count is_frame_work after = 0%nat) ∧
    (∃ body hints,
       tr = body ++ hints ∧
       count is_signal body = 1%nat ∧
       count is_draw_or_wait body = 1%nat ∧
       count is_hint body = 0%nat).
Proof.
  intros [thread Ht] [c Hc].
  destruct (drawFrame_Done w thread c Ht Hc)
    as (s & cd & p & e1 & n & d & now & e' & _ & _ & Hd).
  eexists _, _, _. split; [exact Hd|].
  generalize (task (posted w)) as t.
  generalize (systemTime (env (posted w))).1 as t0.
  generalize (systemTime (env w)).1 as q.
  intros q t0 t. unfold run_trace.
  set (info := sync_info s cd p).
  set (hints := match mUpdateTargetWorkDuration t,
                      mReportActualWorkDuration t with
                | Some u, Some r0 => hint_trace u r0 _ _ _ _
                | _, _ => []
                end).
  assert (∀ p0, (∀ u r0 v, p0 (EvUpdateTargetWorkDuration u v) = false ∧
                           p0 (EvReportActualWorkDuration r0 v) = false) →
                (∀ x, p0 (EvSystemTime x) = false) →
                count p0 hints = 0%nat) as Hh.
  { intros p0 Hp0 Hck. subst hints.
    destruct (mUpdateTargetWorkDuration t), (mReportActualWorkDuration t);
      try done.
    apply count_hint_trace;
      [apply (Hp0 _ 1%positive)|apply Hck|apply (Hp0 1%positive)]. }
  set (pre := [EvSystemTime q; EvPost; EvSystemTime t0]
              ++ sync_trace t s cd p).
  set (fc := match mFrameCompleteCallback t with
             | Some cb => [EvAddFrameCompleteListener cb] | None => [] end).
  set (fw := match mFrameCallback t with
             | Some cb => [EvEnqueueFrameWork cb n] | None => [] end).
  set (dw := if out_canDrawThisFrame info then EvDraw d else EvWaitOnFences).
  assert (count is_sync_event fw = 0%nat ∧ count is_listener fw = 0%nat ∧
          count is_signal fw = 0%nat ∧ count is_draw_or_wait fw = 0%nat ∧
          count is_hint fw = 0%nat) as (Hw1 & Hw2 & Hw3 & Hw4 & Hw5)
    by (subst fw; by destruct (mFrameCallback t)).
  assert (count is_signal fc = 0%nat ∧ count is_draw_or_wait fc = 0%nat ∧
          count is_hint fc = 0%nat) as (Hc1 & Hc2 & Hc3)
    by (subst fc; by destruct (mFrameCompleteCallback t)).
  assert (count is_signal pre = 0%nat ∧ count is_draw_or_wait pre = 0%nat ∧
          count is_hint pre = 0%nat) as (Hp1 & Hp2 & Hp3).
  { subst pre. rewrite !count_app, !count_sync_trace by (by intros []).
    done. }
  assert (is_draw_or_wait dw = true ∧ is_sync_event dw = false ∧
          is_listener dw = false ∧ is_signal dw = false ∧
          is_hint dw = false ∧ is_frame_work dw = false)
    as (Hd1 & Hd2 & Hd3 & Hd4 & Hd5 & Hd6)
    by (subst dw; by destruct (out_canDrawThisFrame info)).
  destruct (prepareTextures info); split_and!.
  - exists (pre ++ fc), (fw ++ dw :: hints). split_and!.
    + subst pre. cbn [app]. rewrite <- ?app_assoc. cbn [app].
      rewrite <- ?app_assoc. reflexivity.
    + rewrite count_app, count_cons, Hw1, Hd2, Hh; done.
    + rewrite count_app, count_cons, Hw2, Hd3, Hh; done.
  - exists (pre ++ fc ++ EvSignal :: fw), dw, hints. split_and!.
    + subst pre. cbn [app]. rewrite <- ?app_assoc. cbn [app].
      rewrite <- ?app_assoc. reflexivity.
    + done.
    + by apply Hh.
    + by apply Hh.
    + by apply Hh.
  - exists (pre ++ fc ++ EvSignal :: fw ++ [dw]), hints. split_and!.
    + subst pre. cbn [app]. rewrite <- ?app_assoc. cbn [app].
      rewrite <- ?app_assoc. reflexivity.
    + rewrite !count_app, count_cons, !count_app, count_cons, Hp1, Hc1, Hw3,
        Hd4. done.
    + rewrite !count_app, count_cons, !count_app, count_cons, Hp2, Hc2, Hw4,
        Hd1. done.
    + rewrite !count_app, count_cons, !count_app, count_cons, Hp3, Hc3, Hw5,
        Hd5. done.
  - exists (pre ++ fc ++ fw ++ [dw]), hints. split_and!.
    + subst pre. cbn [app]. rewrite <- ?app_assoc. cbn [app].
      rewrite <- ?app_assoc. reflexivity.
    + by apply Hh.
    + by apply Hh.
  - exists (pre ++ fc ++ fw), dw, (EvSignal :: hints). split_and!.
    + subst pre. cbn [app]. rewrite <- ?app_assoc. cbn [app].
      rewrite <- ?app_assoc. reflexivity.
    + done.
    + rewrite count_cons, Hh; done.
    + rewrite count_cons, Hh; done.
    + rewrite count_cons, Hh; done.
  - exists (pre ++ fc ++ fw ++ [dw; EvSignal]), hints. split_and!.
    + subst pre. cbn [app]. rewrite <- ?app_assoc. cbn [app].
      rewrite <- ?app_assoc. reflexivity.
    + rewrite !count_app, !count_cons, Hp1, Hc1, Hw3, Hd4. done.
    + rewrite !count_app, !count_cons, Hp2, Hc2, Hw4, Hd1. done.
    + rewrite !count_app, !count_cons, Hp3, Hc3, Hw5, Hd5. done.
Qed.

(** X6. Any number of frames can be sent one after the other on a wired
    task: every drawFrame returns, none aborts or leaves the producer
    waiting, and [n] frames make [n] posts, [n] signals, [n] tree
    preparations and [n] draws or fence waits; the task stays wired. *)
Theorem drawFrames_all_return n w :
  is_Some (mRenderThread (task w)) →
  is_Some (mContext (task w)) →
  ∃ w' tr,
    drawFrames n w = Done tt w' tr ∧
    count is_post tr = n ∧
    count is_signal tr = n ∧
    count is_prepareTree tr = n ∧
    count is_draw_or_wait tr = n ∧
    mRenderThread (task w') = mRenderThread (task w) ∧
    mContext (task w') = mContext (task w).
Proof.
  intros [thread Ht] [c Hc]. revert w Ht Hc.
  induction n as [|n IH]; intros w Ht Hc.
  - by exists w, [].
  - destruct (drawFrame_counts w thread c Ht Hc)
      as (r & w1 & tr1 & Hd & Ht1 & Hc1 & Hpost & Hsig & Hdw & Hprep).
    destruct (IH w1 Ht1 Hc1)
      as (w' & tr2 & Hn & Hpost2 & Hsig2 & Hprep2 & Hdw2 & Ht2 & Hc2).
    exists w', (tr1 ++ tr2). split.
    { cbn [drawFrames]. unfold mbind, M_bind, bind. by rewrite Hd, Hn. }
    rewrite !count_app. split_and!; try congruence; lia.
Qed.

(** X7. A target is not forwarded again for a frame with the same timing:
    whatever the first of two drawFrame calls on unchanged frame info did,
    the second does not call the updateTarget callback and leaves
    mLastTargetWorkDuration as it found it. *)
Theorem target_not_forwarded_twice w :
  is_Some (mRenderThread (task w)) →
  is_Some (mContext (task w)) →
  ∃ r1 w1 tr1 r2 w2 tr2,
    drawFrame w = Done r1 w1 tr1 ∧
    mFrameInfo (task w1) = mFrameInfo (task w) ∧
    drawFrame w1 = Done r2 w2 tr2 ∧
    count is_target_update tr2 = 0%nat ∧
    mLastTargetWorkDuration (task w2) = mLastTargetWorkDuration (task w1).
Proof.
  intros [thread Ht] [c Hc].
  destruct (drawFrame_Done w thread c Ht Hc)
    as (s & cd & p & e1 & n & d & now & e' & _ & _ & Hd).
  match type of Hd with _ = Done _ ?w1 _ => set (w' := w1) in * end.
  destruct (drawFrame_Done w' thread c)
    as (s2 & cd2 & p2 & e2 & n2 & d2 & now2 & e2' & _ & _ & Hd2);
    [by destruct w as [[] ? ?]..|].
  match type of Hd with _ = Done ?r1 _ ?t1 =>
    match type of Hd2 with _ = Done ?r2 ?w2 ?t2 =>
      exists r1, w', t1, r2, w2, t2
    end
  end.
  split; [exact Hd|]. split; [done|]. split; [exact Hd2|].
  rewrite !count_cons, count_target_update_run_trace.
  cbn [is_target_update Nat.add].
  subst w'. cbn [posted task env after_run with_mSyncQueued with_mSyncResult
    mUpdateTargetWorkDuration mReportActualWorkDuration mFrameInfo
    mLastTargetWorkDuration].
  destruct (mUpdateTargetWorkDuration (task w)),
    (mReportActualWorkDuration (task w)); try done.
  destruct (target_fires _ (mLastTargetWorkDuration (task w))) eqn:Hf.
  - by rewrite target_fires_refl.
  - by rewrite Hf.
Qed.

(** X8. A drawFrame leaves alone what the producer configured: render
    thread, context, target node, content draw bounds, frame info and the
    hint callbacks are as before the call.  It records the first clock
    reading as enqueue time, keeps the returned Sync Result in mSyncResult,
    and leaves the layer queue and both frame callback slots empty and the
    producer released. *)
Theorem drawFrame_keeps_configuration w :
  is_Some (mRenderThread (task w)) →
  is_Some (mContext (task w)) →
  ∃ r w' tr queued rest,
    drawFrame w = Done r w' tr ∧
    tr = EvSystemTime queued :: EvPost :: rest ∧
    mSyncQueued (task w') = queued ∧
    mSyncResult (task w') = r ∧
    mRenderThread (task w') = mRenderThread (task w) ∧
    mContext (task w') = mContext (task w) ∧
    mTargetNode (task w') = mTargetNode (task w) ∧
    mContentDrawBounds (task w') = mContentDrawBounds (task w) ∧
    mFrameInfo (task w') = mFrameInfo (task w) ∧
    mUpdateTargetWorkDuration (task w') = mUpdateTargetWorkDuration (task w) ∧
    mReportActualWorkDuration (task w') = mReportActualWorkDuration (task w) ∧
    mLayers (task w') = [] ∧
    mFrameCallback (task w') = None ∧
    mFrameCompleteCallback (task w') = None ∧
    waiter w' = Idle.
Proof.
  intros [thread Ht] [c Hc].
  destruct (drawFrame_Done w thread c Ht Hc)
    as (s & cd & p & e1 & n & d & now & e' & _ & _ & Hd).
  eexists _, _, _, _, _. split; [exact Hd|]. by split_and!.
Qed.

(** X9. Tree preparation is never skipped: every drawFrame on a wired task
    calls prepareTree exactly once, also when there is no surface or the
    context cannot be made current, and passes it the enqueue time that
    drawFrame recorded and the target node given to setContext; the checks
    of the surface come after it. *)
Theorem prepareTree_called_once w :
  is_Some (mRenderThread (task w)) →
  is_Some (mContext (task w)) →
  ∃ r w' tr queued before info after,
    drawFrame w = Done r w' tr ∧
    hd_error tr = Some (EvSystemTime queued) ∧
    tr = before ++ EvPrepareTree queued (mTargetNode (task w)) info :: after ∧
    count is_prepareTree before = 0%nat ∧
    count is_prepareTree after = 0%nat ∧
    (∀ surface, EvHasSurface surface ∉ before) ∧
    (∃ surface, EvHasSurface surface ∈ after).
Proof.
  intros [thread Ht] [c Hc].
  destruct (drawFrame_Done w thread c Ht Hc)
    as (s & cd & p & e1 & n & d & now & e' & _ & _ & Hd).
  eexists _, _, _, _,
    ([EvSystemTime (systemTime (env w)).1; EvPost;
      EvSystemTime (systemTime (env (posted w))).1;
      EvVsyncReceived (mFrameInfo (task w) Vsync)
        (mFrameInfo (task w) IntendedVsync)
        (mFrameInfo (task w) FrameTimelineVsyncId)
        (mFrameInfo (task w) FrameDeadline)
        (mFrameInfo (task w) FrameInterval);
      EvMakeCurrent cd; EvUnpinImages]
     ++ (EvApply <$> mLayers (task w))
     ++ [EvSetContentDrawBounds (mContentDrawBounds (task w))]),
    p, _.
  split; [exact Hd|]. split; [reflexivity|].
  split.
  { unfold run_trace, sync_trace. cbn [app posted task mFrameInfo mLayers
      mContentDrawBounds mSyncQueued mTargetNode with_mSyncQueued
      with_mSyncResult].
    rewrite <- ?app_assoc. cbn [app]. reflexivity. }
  split.
  { rewrite !count_app, count_apply_none by done. reflexivity. }
  split.
  { rewrite count_cons, !count_app, !count_option_list, !count_cons.
    cbn [is_prepareTree].
    repeat case_match; try discriminate; cbn [app];
      rewrite ?count_cons, ?count_hint_trace by done; reflexivity. }
  split.
  { intros surface Hin. set_unfold in Hin. naive_solver. }
  exists s. by left.
Qed.

(** *** More on the layer-update queue *)

(** A run of pushes, on a task with a context. *)
Lemma pushes_Done (w : World E) c ls :
  mContext (task w) = Some c →
  ∃ w' added,
    layer_ops (PushLayer <$> ls) w = Done tt w' [] ∧
    task w' = with_mLayers (mLayers (task w) ++ added) (task w) ∧
    env w' = env w ∧ waiter w' = waiter w ∧
    NoDup added ∧
    added `sublist_of` ls ∧
    (∀ x, x ∈ added ↔ x ∈ ls ∧ x ∉ mLayers (task w)).
Proof.
  revert w. induction ls as [|x ls IH]; intros w Hc.
  - exists w, []. rewrite app_nil_r. split_and!; try done.
    + by destruct w as [[] ? ?].
    + apply NoDup_nil_2.
    + intros x. rewrite elem_of_nil. naive_solver.
  - cbn [fmap list_fmap layer_ops layer_op]. unfold mbind, M_bind, bind.
    rewrite (pushLayerUpdate_Done w c) by done.
    destruct (decide (x ∈ mLayers (task w))) as [Hin|Hnin].
    + destruct (IH w Hc) as (w' & added & -> & Ht & He & Hw & Hnd & Hsub & Hel).
      exists w', added. split_and!; try done.
      * by apply sublist_cons.
      * intros y. rewrite Hel, elem_of_cons. naive_solver.
    + destruct (IH (mkWorld (with_mLayers (mLayers (task w) ++ [x]) (task w))
                      (env w) (waiter w)))
        as (w' & added & -> & Ht & He & Hw & Hnd & Hsub & Hel); [done|].
      cbn [task env waiter mLayers with_mLayers] in Ht, He, Hw, Hel.
      exists w', (x :: added). split_and!; try done.
      * rewrite Ht. cbn. by rewrite <- app_assoc.
      * apply NoDup_cons. split; [|done].
        intros [_ Hx]%Hel. apply Hx. set_solver.
      * by apply sublist_skip.
      * intros y. rewrite elem_of_cons, Hel, elem_of_cons, not_elem_of_app.
        rewrite list_elem_of_singleton.
        destruct (decide (y = x)) as [->|]; naive_solver.
Qed.

(** X10. Pushing a list of handles on a task with a context appends to
    the queue, in the order of their first push, exactly the handles that
    were not queued yet, each once; the entries that were queued keep their
    place.  On an empty queue the length afterwards is the number of
    distinct handles pushed. *)
Theorem pushes_append_new_handles w ls :
  is_Some (mContext (task w)) →
  ∃ w' added,
    layer_ops (PushLayer <$> ls) w = Done tt w' [] ∧
    mLayers (task w') = mLayers (task w) ++ added ∧
    NoDup added ∧
    added `sublist_of` ls ∧
    (∀ x, x ∈ added ↔ x ∈ ls ∧ x ∉ mLayers (task w)) ∧
    (mLayers (task w) = [] →
     length (mLayers (task w')) = length (remove_dups ls)).
Proof.
  intros [c Hc].
  destruct (pushes_Done w c ls Hc)
    as (w' & added & Hops & Ht & _ & _ & Hnd & Hsub & Hel).
  exists w', added. rewrite Ht. cbn [mLayers with_mLayers].
  split_and!; try done.
  intros Hempty. rewrite Hempty. cbn [app].
  apply Permutation_length, NoDup_Permutation;
    [done|apply NoDup_remove_dups|].
  intros x. rewrite Hel, elem_of_remove_dups, Hempty, elem_of_nil.
  naive_solver.
Qed.

(** X11. Round trips on the queue of a task with a context.  Pushing a
    handle that is not queued and removing it again leaves the task as it
    was; removing a queued handle and pushing it again moves it to the end
    of the queue; removing a handle twice does what removing it once
    does. *)
Theorem layer_queue_round_trips w layer :
  is_Some (mContext (task w)) →
  NoDup (mLayers (task w)) →
  (layer ∉ mLayers (task w) →
   (pushLayerUpdate layer;; removeLayerUpdate layer) w = Done tt w []) ∧
  (∀ l1 l2,
     mLayers (task w) = l1 ++ layer :: l2 →
     ∃ w',
       (removeLayerUpdate layer;; pushLayerUpdate layer) w = Done tt w' [] ∧
       mLayers (task w') = l1 ++ l2 ++ [layer]) ∧
  (removeLayerUpdate layer;; removeLayerUpdate layer) w =
    removeLayerUpdate layer w.
Proof.
  intros [c Hc] Hnd. split_and!.
  - intros Hnin. unfold mbind, M_bind, bind.
    rewrite (pushLayerUpdate_Done w c) by done.
    rewrite decide_False by done. rewrite removeLayerUpdate_Done.
    cbn [task env waiter mLayers with_mLayers].
    rewrite find_layer_first by done. rewrite delete_middle, app_nil_r.
    by destruct w as [[] ? ?].
  - intros l1 l2 Hq.
    rewrite Hq in Hnd. apply NoDup_app in Hnd as (_ & Hdis & Hnd2).
    apply NoDup_cons in Hnd2 as [Hl2 _].
    assert (layer ∉ l1) as Hl1.
    { intros Hin. apply (Hdis _ Hin). by left. }
    unfold mbind, M_bind, bind. rewrite removeLayerUpdate_Done, Hq.
    rewrite find_layer_first by done. rewrite delete_middle.
    erewrite pushLayerUpdate_Done by done.
    cbn [task env waiter mLayers with_mLayers].
    rewrite decide_False by (rewrite not_elem_of_app; by split).
    eexists. split; [done|]. cbn. by rewrite <- app_assoc.
  - unfold mbind, M_bind, bind. rewrite removeLayerUpdate_Done.
    destruct (find_layer layer (mLayers (task w))) as [i|] eqn:Hf.
    + apply find_layer_Some in Hf as (l1 & l2 & Hq & Hl1 & Hdel).
      rewrite removeLayerUpdate_Done.
      cbn [task env waiter mLayers with_mLayers]. rewrite Hdel.
      rewrite Hq in Hnd. apply NoDup_app in Hnd as (_ & _ & Hnd2).
      apply NoDup_cons in Hnd2 as [Hl2 _].
      assert (find_layer layer (l1 ++ l2) = None) as ->.
      { apply find_layer_None. rewrite not_elem_of_app. by split. }
      done.
    + rewrite removeLayerUpdate_Done, Hf. done.
Qed.

(** X12. The calls on the queue stay within the task: whatever sequence of
    pushLayerUpdate and removeLayerUpdate calls is made, with or without a
    context, it calls no collaborator and emits no event, it leaves every
    member of the task but mLayers as it was, and the only way it can fail
    is the LOG_ALWAYS_FATAL of pushLayerUpdate. *)
Theorem layer_ops_touch_only_the_queue w ops :
  ∃ w',
    (layer_ops ops w = Done tt w' [] ∨
     ∃ msg, layer_ops ops w = Failed (LogAlwaysFatal msg) w' []) ∧
    env w' = env w ∧
    waiter w' = waiter w ∧
    with_mLayers (mLayers (task w)) (task w') = task w.
Proof.
  revert w. induction ops as [|o ops IH]; intros w.
  - exists w. split_and!; [by left|done..|by destruct w as [[] ? ?]].
  - cbn [layer_ops]. unfold mbind, M_bind, bind.
    assert (∃ w1,
              (layer_op o w = Done tt w1 [] ∨
               (∃ msg, layer_op o w = Failed (LogAlwaysFatal msg) w1 [])) ∧
              env w1 = env w ∧ waiter w1 = waiter w ∧
              with_mLayers (mLayers (task w)) (task w1) = task w)
      as (w1 & Hop & He1 & Hw1 & Ht1).
    { destruct o as [layer|layer]; cbn [layer_op].
      - destruct (mContext (task w)) as [c|] eqn:Hc.
        + rewrite (pushLayerUpdate_Done w c) by done. eexists.
          split; [by left|].
          destruct (decide _); by destruct w as [[] ? ?].
        + exists w. split_and!; [right|done..|by destruct w as [[] ? ?]].
          eexists. unfold pushLayerUpdate, mbind, M_bind, bind.
          cbn [gets]. by rewrite Hc.
      - rewrite removeLayerUpdate_Done. eexists. split; [by left|].
        destruct (find_layer _ _); by destruct w as [[] ? ?]. }
    destruct Hop as [->|[msg ->]].
    + destruct (IH w1) as (w' & Hops & He & Hw & Ht).
      exists w'. split_and!; try congruence.
      * destruct Hops as [->|[msg ->]]; [by left|right; by exists msg].
      * rewrite <- Ht1, <- Ht. by destruct w' as [[] ? ?].
    + exists w1. split_and!; try done. right. by exists msg.
Qed.

(** *** From the queue to the frame *)

Lemma filter_is_apply (layers : list Ptr) :
  List.filter is_apply (EvApply <$> layers) = EvApply <$> layers.
Proof. induction layers as [|l rest IH]; [done|]. cbn. by f_equal. Qed.

(** The apply calls of a run are those of the queue, in its order. *)
Lemma filter_apply_run_trace t t0 surface canDraw prepared frameNr d now :
  List.filter is_apply
    (run_trace t t0 surface canDraw prepared frameNr d now) =
  EvApply <$> mLayers t.
Proof.
  unfold run_trace, sync_trace. rewrite !List.filter_app, filter_is_apply.
  match goal with
  | |- context [List.filter is_apply ?h] =>
      lazymatch h with
      | context [hint_trace] => rewrite (filter_none is_apply h)
      end
  end.
  2: { intros e He. repeat case_match; try by set_unfold.
       all: apply hint_trace_events in He; naive_solver. }
  destruct (mFrameCompleteCallback t), (mFrameCallback t),
    (prepareTextures _), (out_canDrawThisFrame _),
    (negb surface || negb canDraw); cbn; by rewrite ?app_nil_r.
Qed.

(** The queue after a run of pushes: the handles pushed so far, each at the
    place of its first push. *)
Lemma pushes_queue (w : World E) c l0 ls :
  mContext (task w) = Some c →
  mLayers (task w) = reverse (remove_dups (reverse l0)) →
  layer_ops (PushLayer <$> ls) w =
    Done tt
      (mkWorld
         (with_mLayers (reverse (remove_dups (reverse (l0 ++ ls)))) (task w))
         (env w) (waiter w))
      [].
Proof.
  revert w l0. induction ls as [|x ls IH]; intros w l0 Hc Hq.
  - rewrite app_nil_r, <- Hq. cbn. by destruct w as [[] ? ?].
  - cbn [fmap list_fmap layer_ops layer_op]. unfold mbind, M_bind, bind.
    rewrite (pushLayerUpdate_Done w c) by done.
    assert ((if decide (x ∈ mLayers (task w)) then mLayers (task w)
             else mLayers (task w) ++ [x]) =
            reverse (remove_dups (reverse (l0 ++ [x])))) as Hstep.
    { rewrite reverse_app. change (reverse [x] ++ reverse l0)
        with (x :: reverse l0). cbn [remove_dups]. rewrite Hq.
      destruct (decide_rel elem_of x (reverse l0)) as [Hin|Hnin].
      - rewrite decide_True; [done|].
        by rewrite elem_of_reverse, elem_of_remove_dups.
      - rewrite decide_False; [by rewrite reverse_cons|].
        by rewrite elem_of_reverse, elem_of_remove_dups. }
    destruct (decide (x ∈ mLayers (task w))).
    + rewrite (IH w (l0 ++ [x])) by done. by rewrite <- app_assoc.
    + rewrite (IH _ (l0 ++ [x])); [|done..].
      by rewrite <- app_assoc.
Qed.

(** X13. The life of a task from its construction: after setContext with a
    render thread and a context, any pushes and one drawFrame, the frame
    returns, it applied every handle pushed exactly once and in the order
    of the first pushes, it called no hint callback, frame callback or
    frame-complete listener (none was installed) and read the clock twice;
    the queue is empty afterwards and the next drawFrame applies nothing. *)
Theorem constructed_task_applies_pushed_layers
    queued0 frameInfo0 lastTarget0 lastDequeue0 (e : E) thread c node ls :
  ∃ r w' tr r2 w2 tr2,
    (setContext (Some thread) (Some c) node;;
     layer_ops (PushLayer <$> ls);;
     drawFrame)
      (mkWorld (DrawFrameTask_new queued0 frameInfo0 lastTarget0 lastDequeue0)
         e Idle) = Done r w' tr ∧
    List.filter is_apply tr = EvApply <$> reverse (remove_dups (reverse ls)) ∧
    count is_hint tr = 0%nat ∧
    count is_listener tr = 0%nat ∧
    count is_frame_work tr = 0%nat ∧
    count is_clock tr = 2%nat ∧
    mLayers (task w') = [] ∧
    mLastTargetWorkDuration (task w') = lastTarget0 ∧
    drawFrame w' = Done r2 w2 tr2 ∧
    count is_apply tr2 = 0%nat.
Proof.
  set (t0 := with_context (Some thread) (Some c) node
               (DrawFrameTask_new queued0 frameInfo0 lastTarget0
                  lastDequeue0)).
  pose proof (pushes_queue (mkWorld t0 e Idle) c [] ls eq_refl eq_refl)
    as Hpush.
  cbn [app task env waiter] in Hpush.
  set (w1 := mkWorld
               (with_mLayers (reverse (remove_dups (reverse ls))) t0)
               e Idle) in *.
  destruct (drawFrame_Done w1 thread c eq_refl eq_refl)
    as (s & cd & p & e1 & n & d & now & e' & _ & _ & Hd).
  match type of Hd with _ = Done _ ?wa _ => set (w' := wa) in * end.
  destruct (drawFrame_Done w' thread c eq_refl eq_refl)
    as (s2 & cd2 & p2 & e2 & n2 & d2 & now2 & e2' & _ & _ & Hd2).
  match type of Hd with _ = Done ?ra _ ?ta =>
    match type of Hd2 with _ = Done ?rb ?wb ?tb =>
      exists ra, w', ta, rb, wb, tb
    end
  end.
  split.
  { unfold mbind, M_bind, bind.
    change (setContext (Some thread) (Some c) node
              (mkWorld (DrawFrameTask_new queued0 frameInfo0 lastTarget0
                          lastDequeue0) e Idle))
      with (Done tt (mkWorld t0 e Idle) (@nil Event)).
    cbv beta iota. rewrite Hpush. cbv beta iota. rewrite Hd. reflexivity. }
  split.
  { cbn [List.filter is_apply]. by rewrite filter_apply_run_trace. }
  split_and!; try done.
  1-4: rewrite !count_cons, count_run_trace, count_sync_trace_apply by done;
    cbn; by destruct (negb s || negb cd), (out_canDrawThisFrame _).
  unfold count. cbn [List.filter is_apply].
  by rewrite filter_apply_run_trace.
Qed.

(** X14. Removing a queued handle before the frame keeps it from being
    applied: on a wired task whose queue holds no handle twice,
    removeLayerUpdate followed by drawFrame applies the other queued
    handles, in the order of the queue, and not the removed one. *)
Theorem removed_layer_is_not_applied w layer :
  is_Some (mRenderThread (task w)) →
  is_Some (mContext (task w)) →
  NoDup (mLayers (task w)) →
  ∃ r w' tr applied,
    (removeLayerUpdate layer;; drawFrame) w = Done r w' tr ∧
    List.filter is_apply tr = EvApply <$> applied ∧
    applied `sublist_of` mLayers (task w) ∧
    (EvApply layer ∉ tr) ∧
    (∀ l, l ≠ layer → (EvApply l ∈ tr ↔ l ∈ mLayers (task w))).
Proof.
  intros [thread Ht] [c Hc] Hnd.
  set (q := match find_layer layer (mLayers (task w)) with
            | Some i => delete i (mLayers (task w))
            | None => mLayers (task w)
            end).
  set (w1 := mkWorld (with_mLayers q (task w)) (env w) (waiter w)).
  assert (removeLayerUpdate layer w = Done tt w1 []) as Hrm.
  { rewrite removeLayerUpdate_Done. subst w1 q.
    destruct (find_layer _ _); [done|]. by destruct w as [[] ? ?]. }
  assert (q `sublist_of` mLayers (task w) ∧ (layer ∉ q) ∧
          ∀ l, l ≠ layer → (l ∈ q ↔ l ∈ mLayers (task w)))
    as (Hsub & Hnin & Hel).
  { subst q. destruct (find_layer layer (mLayers (task w))) as [i|] eqn:Hf.
    - apply find_layer_Some in Hf as (l1 & l2 & Hq & Hl1 & Hdel).
      rewrite Hdel. rewrite Hq in Hnd |- *.
      apply NoDup_app in Hnd as (_ & _ & Hnd2).
      apply NoDup_cons in Hnd2 as [Hl2 _].
      split_and!.
      + apply sublist_app; [done|]. by apply sublist_cons.
      + rewrite not_elem_of_app. by split.
      + intros l Hne. rewrite !elem_of_app, elem_of_cons. naive_solver.
    - apply find_layer_None in Hf. by split_and!. }
  destruct (drawFrame_Done w1 thread c)
    as (s & cd & p & e1 & n & d & now & e' & _ & _ & Hd);
    [by destruct w as [[] ? ?]..|].
  match type of Hd with _ = Done ?ra ?wa ?ta => exists ra, wa, ta, q end.
  assert (∀ l ta, EvApply l ∈ ta ↔ EvApply l ∈ List.filter is_apply ta)
    as Hfilter.
  { intros l ta. induction ta as [|x ta IH]; [done|].
    destruct x; cbn; rewrite ?elem_of_cons, IH; naive_solver. }
  assert (List.filter is_apply
            (EvSystemTime (systemTime (env w1)).1 :: EvPost ::
             run_trace (task (posted w1)) (systemTime (env (posted w1))).1
               s cd p n d now) = EvApply <$> q) as Hq.
  { cbn [List.filter is_apply]. by rewrite filter_apply_run_trace. }
  split.
  { unfold mbind, M_bind, bind. by rewrite Hrm, Hd. }
  split; [exact Hq|]. split; [exact Hsub|].
  split.
  - rewrite Hfilter, Hq, list_elem_of_fmap. naive_solver.
  - intros l Hne. rewrite Hfilter, Hq, list_elem_of_fmap, <- (Hel l Hne).
    naive_solver.
Qed.

(** *** The hint session *)

(** The hint events of a frame. *)
Lemma drawFrame_trace_hints w t0 surface canDraw prepared frameNr d now e :
  is_hint e = true →
  e ∈ EvSystemTime (systemTime (env w)).1 :: EvPost ::
      run_trace (task (posted w)) t0 surface canDraw prepared frameNr d now →
  ∃ u r target,
    mUpdateTargetWorkDuration (task w) = Some u ∧
    mReportActualWorkDuration (task w) = Some r ∧
    target =
      targetWorkDuration_of (mFrameInfo (task w) FrameDeadline)
        (mFrameInfo (task w) IntendedVsync) ∧
    ((e = EvUpdateTargetWorkDuration u target ∧
      target_fires target (mLastTargetWorkDuration (task w)) = true) ∨
     ∃ actual, e = EvReportActualWorkDuration r actual).
Proof.
  intros Hh. rewrite !elem_of_cons, run_trace_events.
  intros [->|[->|[->|[He%sync_trace_events|[(?&?&->)|[->|[(?&?&->)|[[? ->]|
    [[? ->]|(u & r & Hu & Hr & He)]]]]]]]]]; try done.
  { by destruct e. }
  exists u, r, (targetWorkDuration_of (mFrameInfo (task w) FrameDeadline)
                  (mFrameInfo (task w) IntendedVsync)).
  split_and!; [done..|].
  apply hint_trace_events in He as [[-> Hf]|[->|[-> _]]]; [|done|].
  - by left.
  - right. by eexists.
Qed.

(** X15. Hints need both callbacks.  After setHintSessionCallbacks the
    frame calls no callback but the two installed, and with only one of
    them installed, or none, it reports nothing at all: no target, no
    actual duration, no clock reading for the report, and the last
    forwarded target stays as it was.  With both installed the clock is
    read a third time, and a forwarded target is the one remembered. *)
Theorem hints_need_both_callbacks w u r :
  is_Some (mRenderThread (task w)) →
  is_Some (mContext (task w)) →
  ∃ res w' tr,
    (setHintSessionCallbacks u r;; drawFrame) w = Done res w' tr ∧
    mUpdateTargetWorkDuration (task w') = u ∧
    mReportActualWorkDuration (task w') = r ∧
    (∀ cb v, EvUpdateTargetWorkDuration cb v ∈ tr →
       u = Some cb ∧ is_Some r ∧ mLastTargetWorkDuration (task w') = v) ∧
    (∀ cb v, EvReportActualWorkDuration cb v ∈ tr →
       r = Some cb ∧ is_Some u) ∧
    (u = None ∨ r = None →
       count is_hint tr = 0%nat ∧ count is_clock tr = 2%nat ∧
       mLastTargetWorkDuration (task w') =
         mLastTargetWorkDuration (task w)) ∧
    (is_Some u → is_Some r → count is_clock tr = 3%nat).
Proof.
  intros [thread Ht] [c Hc].
  set (w1 := mkWorld (with_hintCallbacks u r (task w)) (env w) (waiter w)).
  destruct (drawFrame_Done w1 thread c)
    as (s & cd & p & e1 & n & d & now & e' & _ & _ & Hd);
    [by destruct w as [[] ? ?]..|].
  match type of Hd with _ = Done ?ra ?wa ?ta => exists ra, wa, ta end.
  split.
  { unfold mbind, M_bind, bind.
    change (setHintSessionCallbacks u r w) with (Done tt w1 (@nil Event)).
    cbv beta iota. by rewrite Hd. }
  split; [done|]. split; [done|].
  split_and!.
  - intros cb v Hin.
    apply drawFrame_trace_hints in Hin
      as (u' & r' & target & Hu & Hr & -> & [[[= -> ->] Hf]|[? [=]]]);
      [|done].
    cbn in Hu, Hr. subst u r. split_and!; [done..|].
    cbn [task after_run mLastTargetWorkDuration posted with_mSyncQueued
      with_mSyncResult w1 with_hintCallbacks mUpdateTargetWorkDuration
      mReportActualWorkDuration mFrameInfo].
    cbn [task w1 with_hintCallbacks mFrameInfo mLastTargetWorkDuration] in Hf.
    by rewrite Hf.
  - intros cb v Hin.
    apply drawFrame_trace_hints in Hin
      as (u' & r' & target & Hu & Hr & -> & [[[=] _]|[? [= -> ->]]]);
      [|done].
    cbn in Hu, Hr. by subst u r.
  - intros Hnone.
    rewrite !count_cons, !count_run_trace.
    rewrite !count_sync_trace_apply by done.
    cbn [task after_run mLastTargetWorkDuration posted with_mSyncQueued
      with_mSyncResult w1 with_hintCallbacks mUpdateTargetWorkDuration
      mReportActualWorkDuration mFrameInfo mFrameCallback
      mFrameCompleteCallback is_hint is_clock].
    destruct Hnone as [-> | ->]; [|destruct u];
      destruct (mFrameCompleteCallback (task w)), (mFrameCallback (task w)),
        (negb s || negb cd), (out_canDrawThisFrame _); done.
  - intros [u' ->] [r' ->]. unfold count.
    cbn [List.filter is_clock].
    by erewrite run_trace_clock.
Qed.

(** A percentage of a budget, rounded towards zero by the division. *)
Lemma percentage_quot (budget pct v : Z) :
  0 <= pct <= 100 →
  v = (budget * pct) ÷ 100 →
  100000 < v →
  v <= budget ∧ v * 100 <= budget * pct < (v + 1) * 100.
Proof.
  intros Hpct -> Hv.
  assert (∀ x, 100000 < x ÷ 100 → 0 <= x) as Hpos.
  { intros x Hx. destruct (Z.le_gt_cases 0 x) as [|Hneg]; [done|].
    pose proof (Z.quot_opp_l x 100 ltac:(lia)) as Ho.
    pose proof (Z.quot_pos (- x) 100 ltac:(lia) ltac:(lia)). lia. }
  pose proof (Hpos _ Hv) as Hnn.
  revert Hv. rewrite Z.quot_div_nonneg by lia.
  generalize (Z.div_mod (budget * pct) 100 ltac:(lia)).
  generalize (Z.mod_pos_bound (budget * pct) 100 ltac:(lia)).
  generalize ((budget * pct) / 100) ((budget * pct) mod 100).
  intros q m Hm Hdiv Hq.
  assert (0 < budget) by nia.
  assert (budget * pct <= budget * 100)
    by (apply Z.mul_le_mono_nonneg_l; lia).
  split; lia.
Qed.

(** X16. A forwarded target stays within the frame's time budget.  With
    the CPU time percentage between 0 and 100 and a deadline close enough
    to the intended vsync for the product not to overflow, every target a
    frame forwards is the percentage of the budget rounded down, more than
    100000 ns and at most the budget; a frame whose deadline is not more
    than 100000 ns after its intended vsync forwards none. *)
Theorem forwarded_target_within_budget w :
  is_Some (mRenderThread (task w)) →
  is_Some (mContext (task w)) →
  0 <= targetCpuTimePercentage <= 100 →
  in_int64
    ((mFrameInfo (task w) FrameDeadline - mFrameInfo (task w) IntendedVsync)
     * 100) →
  ∃ r w' tr,
    drawFrame w = Done r w' tr ∧
    (∀ cb v, EvUpdateTargetWorkDuration cb v ∈ tr →
       let budget :=
         mFrameInfo (task w) FrameDeadline
         - mFrameInfo (task w) IntendedVsync in
       100000 < v <= budget ∧
       v * 100 <= budget * targetCpuTimePercentage < (v + 1) * 100) ∧
    (mFrameInfo (task w) FrameDeadline - mFrameInfo (task w) IntendedVsync
       <= 100000 →
     count is_target_update tr = 0%nat).
Proof.
  intros [thread Ht] [c Hc] Hpct Hrange.
  set (budget := mFrameInfo (task w) FrameDeadline
                 - mFrameInfo (task w) IntendedVsync) in *.
  assert (in_int64 budget ∧ in_int64 (budget * targetCpuTimePercentage))
    as [Hb Hbp].
  { revert Hrange. unfold in_int64.
    change (2 ^ 63) with 9223372036854775808. intros Hrange. split; nia. }
  pose proof (targetWorkDuration_of_exact _ _ Hb Hbp) as Htarget.
  assert (∀ v, v = (budget * targetCpuTimePercentage) ÷ 100 → 100000 < v →
            v <= budget ∧
            v * 100 <= budget * targetCpuTimePercentage < (v + 1) * 100)
    as Hquot.
  { intros v Hv. apply percentage_quot; [lia|done]. }
  destruct (drawFrame_Done w thread c Ht Hc)
    as (s & cd & p & e1 & n & d & now & e' & _ & _ & Hd).
  eexists _, _, _. split; [exact Hd|]. split.
  - intros cb v Hin. cbn zeta.
    apply drawFrame_trace_hints in Hin
      as (u' & r' & target & Hu & Hr & Heq & [[[= -> ->] Hf]|[? [=]]]);
      [|done].
    apply target_fires_spec in Hf as [[Hlo _] _].
    rewrite Htarget in Heq. subst target.
    destruct (Hquot _ eq_refl Hlo) as [H1 H2]. subst budget. lia.
  - intros Hshort.
    rewrite !count_cons, count_target_update_run_trace.
    cbn [is_target_update Nat.add posted task with_mSyncQueued
      with_mSyncResult mUpdateTargetWorkDuration mReportActualWorkDuration
      mFrameInfo mLastTargetWorkDuration].
    destruct (mUpdateTargetWorkDuration (task w)); [|done].
    destruct (mReportActualWorkDuration (task w)); [|done].
    destruct (target_fires _ _) eqn:Hf; [|done].
    apply target_fires_spec in Hf as [[Hlo _] _].
    rewrite Htarget in Hlo.
    destruct (Hquot _ eq_refl Hlo) as [H1 H2]. subst budget. lia.
Qed.

End More.

(** ** The further properties on the scripted stand-in *)

Lemma syncFrameState_call_order_witness :
  ∃ ret info w' tr,
    syncFrameState TreeInfo_MODE_FULL sample_world = Done (ret, info) w' tr ∧
    mLayers (task w') = [].
Proof.
  destruct (syncFrameState_call_order TreeInfo_MODE_FULL sample_world)
    as (ret & info & w' & tr & cd & p & s & again & Hs & _ & _ & Hl).
  - exists 1%positive; reflexivity.
  - exists 2%positive; reflexivity.
  - exists ret, info, w', tr. exact (conj Hs Hl).
Defined.

Lemma syncFrameState_accumulates_witness :
  ∃ ret info w' tr added,
    syncFrameState TreeInfo_MODE_FULL sample_world = Done (ret, info) w' tr ∧
    0 <= added < 16.
Proof.
  destruct (syncFrameState_accumulates TreeInfo_MODE_FULL sample_world)
    as (ret & info & w' & tr & added & Hs & Hb & _).
  - exists 1%positive; reflexivity.
  - exists 2%positive; reflexivity.
  - exists ret, info, w', tr, added. exact (conj Hs Hb).
Defined.

Lemma drawFrame_result_decoded_witness :
  ∃ r w' tr,
    drawFrame surfaceless_world = Done r w' tr ∧
    0 <= r < 16 ∧
    (has_flag r SyncResult.LostSurfaceRewardIfFound = true ↔
     EvHasSurface false ∈ tr).
Proof.
  destruct (drawFrame_result_decoded surfaceless_world)
    as (r & w' & tr & Hd & Hb & HL & _).
  - exists 1%positive; reflexivity.
  - exists 2%positive; reflexivity.
  - exists r, w', tr. exact (conj Hd (conj Hb HL)).
Defined.

Lemma frame_callbacks_are_single_shot_witness :
  ∃ r w' tr,
    drawFrame sample_world = Done r w' tr ∧
    count is_listener tr = 0%nat ∧
    count is_frame_work tr = 0%nat.
Proof.
  destruct (frame_callbacks_are_single_shot sample_world)
    as (r & w' & tr & r2 & w2 & tr2 & Hd & Hl & Hf & _).
  - exists 1%positive; reflexivity.
  - exists 2%positive; reflexivity.
  - exists r, w', tr. exact (conj Hd (conj Hl Hf)).
Defined.

Lemma drawFrame_step_order_witness :
  ∃ r w' tr before after,
    drawFrame pressed_world = Done r w' tr ∧
    tr = before ++ EvSignal :: after ∧
    count is_sync_event after = 0%nat ∧
    count is_listener after = 0%nat.
Proof.
  destruct (drawFrame_step_order pressed_world)
    as (r & w' & tr & Hd & (before & after & Htr & Hs & Hl) & _).
  - exists 1%positive; reflexivity.
  - exists 2%positive; reflexivity.
  - exists r, w', tr, before, after.
    exact (conj Hd (conj Htr (conj Hs Hl))).
Defined.

Lemma drawFrames_all_return_witness :
  ∃ w' tr,
    drawFrames 3 sample_world = Done tt w' tr ∧
    count is_post tr = 3%nat ∧
    count is_signal tr = 3%nat.
Proof.
  destruct (drawFrames_all_return 3 sample_world)
    as (w' & tr & Hd & Hp & Hs & _).
  - exists 1%positive; reflexivity.
  - exists 2%positive; reflexivity.
  - exists w', tr. exact (conj Hd (conj Hp Hs)).
Defined.

Lemma target_not_forwarded_twice_witness :
  ∃ r1 w1 tr1 r2 w2 tr2,
    drawFrame sample_world = Done r1 w1 tr1 ∧
    drawFrame w1 = Done r2 w2 tr2 ∧
    count is_target_update tr2 = 0%nat.
Proof.
  destruct (target_not_forwarded_twice sample_world)
    as (r1 & w1 & tr1 & r2 & w2 & tr2 & Hd & _ & Hd2 & Hc & _).
  - exists 1%positive; reflexivity.
  - exists 2%positive; reflexivity.
  - exists r1, w1, tr1, r2, w2, tr2. exact (conj Hd (conj Hd2 Hc)).
Defined.

Lemma drawFrame_keeps_configuration_witness :
  ∃ r w' tr,
    drawFrame sample_world = Done r w' tr ∧
    mSyncResult (task w') = r ∧
    mContext (task w') = Some 2%positive.
Proof.
  destruct (drawFrame_keeps_configuration sample_world)
    as (r & w' & tr & queued & rest & Hd & _ & _ & Hr & _ & Hc & _).
  - exists 1%positive; reflexivity.
  - exists 2%positive; reflexivity.
  - exists r, w', tr. exact (conj Hd (conj Hr Hc)).
Defined.

Lemma prepareTree_called_once_witness :
  ∃ r w' tr queued before info after,
    drawFrame surfaceless_world = Done r w' tr ∧
    tr = before ++ EvPrepareTree queued (Some 3%positive) info :: after ∧
    count is_prepareTree before = 0%nat ∧
    count is_prepareTree after = 0%nat.
Proof.
  destruct (prepareTree_called_once surfaceless_world)
    as (r & w' & tr & queued & before & info & after & Hd & _ & Htr & Hb
        & Ha & _).
  - exists 1%positive; reflexivity.
  - exists 2%positive; reflexivity.
  - exists r, w', tr, queued, before, info, after.
    exact (conj Hd (conj Htr (conj Hb Ha))).
Defined.

Lemma pushes_append_new_handles_witness :
  ∃ w' added,
    layer_ops
      (PushLayer <$> [5%positive; 6%positive; 5%positive]) sample_world =
      Done tt w' [] ∧
    mLayers (task w') = added ∧
    NoDup added.
Proof.
  destruct (pushes_append_new_handles sample_world
              [5%positive; 6%positive; 5%positive])
    as (w' & added & Hops & Hq & Hnd & _).
  - exists 2%positive; reflexivity.
  - exists w', added. exact (conj Hops (conj Hq Hnd)).
Defined.

Lemma layer_queue_round_trips_witness :
  (pushLayerUpdate 5%positive;; removeLayerUpdate 5%positive) sample_world =
    Done tt sample_world [].
Proof.
  destruct (layer_queue_round_trips sample_world 5%positive) as (H & _ & _).
  - exists 2%positive; reflexivity.
  - apply NoDup_nil_2.
  - apply H. apply not_elem_of_nil.
Defined.

Lemma removed_layer_is_not_applied_witness :
  ∃ r w' tr,
    (removeLayerUpdate 5%positive;; drawFrame)
      (mkWorld (with_mLayers [5%positive; 6%positive] wired_task)
         sample_script Idle) = Done r w' tr ∧
    EvApply 5%positive ∉ tr.
Proof.
  destruct (removed_layer_is_not_applied
              (mkWorld (with_mLayers [5%positive; 6%positive] wired_task)
                 sample_script Idle) 5%positive)
    as (r & w' & tr & applied & Hd & _ & _ & Hn & _).
  - exists 1%positive; reflexivity.
  - exists 2%positive; reflexivity.
  - apply (bool_decide_unpack _). vm_compute. exact I.
  - exists r, w', tr. exact (conj Hd Hn).
Defined.

Lemma hints_need_both_callbacks_witness :
  ∃ res w' tr,
    (setHintSessionCallbacks (Some 10%positive) None;; drawFrame)
      sample_world = Done res w' tr ∧
    mUpdateTargetWorkDuration (task w') = Some 10%positive ∧
    mReportActualWorkDuration (task w') = None.
Proof.
  destruct (hints_need_both_callbacks sample_world (Some 10%positive) None)
    as (res & w' & tr & Hd & Hu & Hr & _).
  - exists 1%positive; reflexivity.
  - exists 2%positive; reflexivity.
  - exists res, w', tr. exact (conj Hd (conj Hu Hr)).
Defined.

Lemma forwarded_target_within_budget_witness :
  ∃ r w' tr,
    drawFrame sample_world = Done r w' tr ∧
    ∀ cb v, EvUpdateTargetWorkDuration cb v ∈ tr →
      100000 < v <= 16600000 ∧ v * 100 <= 16600000 * 70 < (v + 1) * 100.
Proof.
  destruct (forwarded_target_within_budget sample_world)
    as (r & w' & tr & Hd & H & _).
  - exists 1%positive; reflexivity.
  - exists 2%positive; reflexivity.
  - vm_compute. split; discriminate.
  - vm_compute. split; [discriminate|reflexivity].
  - exists r, w', tr. exact (conj Hd H).
Defined.
